(** * Contribution tracker: reconciler and report builder

    A shallow embedding of the two scripts under
    [posts/open_source_contributions]:

    - [update_database.py]: [merge_prs] and [merge_repos], which fold freshly
      fetched records into the stored lists;
    - [generate_contributions.py]: [categorize_repositories] and
      [generate_markdown], which turn the stored lists into the lines of a
      markdown document.

    Records are the JSON objects the GitHub CLI emits.  A key may be absent
    from an object (the scripts read most keys with [dict.get]); a key that is
    present holds a value of the type the CLI gives it.  An object is
    therefore a record of optional fields: [None] is an absent key.  The key
    [closedAt] of closed pull requests is read nowhere and is left out.

    Strings are sequences of bytes (UTF-8): comparing them byte by byte is
    comparing them code point by code point, as Python does. *)

From Stdlib Require Import ZArith String Ascii DecimalString.
From Stdlib Require OrderedTypeEx.
From stdpp Require Import base option list sorting strings gmap.

Open Scope string_scope.
Open Scope list_scope.

(** ** Data model *)

(** The [repository] sub-object of a pull request. *)
Record repository_ref := RepositoryRef {
  ref_name : option string;
  ref_nameWithOwner : option string
}.

(** A pull request ([gh search prs --json title,url,repository,createdAt,state]). *)
Record pull_request := PullRequest {
  pr_title : option string;
  pr_url : option string;
  pr_repository : option repository_ref;
  pr_createdAt : option string;
  pr_state : option string
}.

(** A repository of the user
    ([gh repo list --json name,description,url,isPrivate,createdAt,stargazerCount,isFork]). *)
Record repository := Repository {
  repo_name : option string;
  repo_description : option string;
  repo_url : option string;
  repo_isPrivate : option bool;
  repo_createdAt : option string;
  repo_stargazerCount : option Z;
  repo_isFork : option bool
}.

(** [d.get(key, fallback)] *)
Definition get {A} (field : option A) (fallback : A) : A := default fallback field.

(** [pr.get('repository', {})] : an absent sub-object reads as the empty one. *)
Definition get_repository (pr : pull_request) : repository_ref :=
  get (pr_repository pr) (RepositoryRef None None).

(** [pr.get('repository', {}).get('nameWithOwner', fallback)] *)
Definition nameWithOwner (pr : pull_request) (fallback : string) : string :=
  get (ref_nameWithOwner (get_repository pr)) fallback.

(** ** Python values and library functions used by the scripts *)

Module Py.

(** Exceptions the scripts can raise on the records of the data model. *)
Inductive exception :=
  | KeyError (key : string)
  | ValueError (message : string).

(** A computation that returns a value or raises. *)
Inductive result (A : Type) :=
  | Ok (value : A)
  | Raise (e : exception).
Arguments Ok {A} value.
Arguments Raise {A} e.

Definition bind {A B} (m : result A) (k : A → result B) : result B :=
  match m with
  | Ok a => k a
  | Raise e => Raise e
  end.

(** [for x in xs: out.append(f(x))], stopping at the first exception. *)
Fixpoint for_each {A B} (f : A → result B) (xs : list A) : result (list B) :=
  match xs with
  | [] => Ok []
  | x :: rest =>
      bind (f x) (λ y, bind (for_each f rest) (λ ys, Ok (y :: ys)))
  end.

(** [for x in xs: out.extend(f(x))] *)
Definition for_each_extend {A B} (f : A → result (list B)) (xs : list A)
    : result (list B) :=
  bind (for_each f xs) (λ blocks, Ok (mjoin blocks)).

(** [d[key]] on a record: [KeyError] when the key is absent. *)
Definition index {A} (key : string) (field : option A) : result A :=
  match field with
  | Some v => Ok v
  | None => Raise (KeyError key)
  end.

(** [s.startswith(p)] *)
Definition startswith (p s : string) : bool := String.prefix p s.

(** [s.endswith(suffix)] *)
Definition endswith (suffix s : string) : bool :=
  let n := String.length suffix in
  let m := String.length s in
  (n <=? m)%nat && String.eqb (substring (m - n) n s) suffix.

(** [sub in s] *)
Fixpoint contains (sub s : string) : bool :=
  String.prefix sub s ||
  match s with
  | EmptyString => false
  | String _ rest => contains sub rest
  end.

(** [str.lower] on one byte: the ASCII capitals are shifted, every other
    byte is kept.  Strings are UTF-8 byte sequences; on ASCII text this is
    [str.lower]. *)
Definition lower_ascii (c : ascii) : ascii :=
  let n := nat_of_ascii c in
  if (65 <=? n)%nat && (n <=? 90)%nat then ascii_of_nat (n + 32) else c.

Fixpoint lower (s : string) : string :=
  match s with
  | EmptyString => EmptyString
  | String c rest => String (lower_ascii c) (lower rest)
  end.

(** [s.replace('Z', '+00:00')]: every occurrence is replaced. *)
Fixpoint replace_Z (s : string) : string :=
  match s with
  | EmptyString => EmptyString
  | String c rest =>
      if Ascii.eqb c "Z"%char then "+00:00" +:+ replace_Z rest
      else String c (replace_Z rest)
  end.

(** [s.split('/')[0]] *)
Fixpoint before_slash (s : string) : string :=
  match s with
  | EmptyString => EmptyString
  | String c rest =>
      if Ascii.eqb c "/"%char then EmptyString else String c (before_slash rest)
  end.

(** [str(n)] for a length or a counter. *)
Definition str_nat (n : nat) : string := NilZero.string_of_uint (Nat.to_uint n).

(** [str(z)] for an integer. *)
Definition str_int (z : Z) : string := NilZero.string_of_int (Z.to_int z).

(** [sep.join(lines)] *)
Fixpoint join (sep : string) (lines : list string) : string :=
  match lines with
  | [] => EmptyString
  | [l] => l
  | l :: rest => l +:+ sep +:+ join sep rest
  end.

(** *** Sorting

    [sorted(xs, key=k, reverse=True)] and [xs.sort(key=k, reverse=True)] are
    stable: elements with equal keys keep their order.  [lt x y] is
    [k(x) < k(y)].  The sort is an insertion sort from the right: an element
    moves behind the elements with a strictly larger key only. *)
Fixpoint insert_desc {A} (lt : A → A → bool) (x : A) (sorted : list A) : list A :=
  match sorted with
  | [] => [x]
  | y :: rest => if lt x y then y :: insert_desc lt x rest else x :: sorted
  end.

Definition sort_desc {A} (lt : A → A → bool) (xs : list A) : list A :=
  foldr (insert_desc lt) [] xs.

(** *** Dictionaries that are iterated

    A [dict] or [defaultdict] whose items are later iterated or sorted is an
    association list in insertion order. *)

(** [d[key].append(x)] on a [defaultdict(list)] (or on a dictionary of lists
    that already holds [key]). *)
Fixpoint dict_append {A} (key : string) (x : A) (d : list (string * list A))
    : list (string * list A) :=
  match d with
  | [] => [(key, [x])]
  | (k, xs) :: rest =>
      if String.eqb k key then (k, xs ++ [x]) :: rest
      else (k, xs) :: dict_append key x rest
  end.

(** [d[key] += 1] on a [defaultdict(int)]. *)
Fixpoint dict_incr (key : string) (d : list (string * nat)) : list (string * nat) :=
  match d with
  | [] => [(key, 1%nat)]
  | (k, n) :: rest =>
      if String.eqb k key then (k, S n) :: rest
      else (k, n) :: dict_incr key rest
  end.

(** *** Dates

    [datetime.fromisoformat(s).strftime('%Y-%m-%d')].  The model reads the
    extended format [YYYY-MM-DD], optionally followed by one separator
    character, [HH:MM:SS] and an optional UTC offset [+HH:MM] or [-HH:MM];
    this is what the data source emits once its trailing [Z] is rewritten.
    Any other string, the empty string among them, is a [ValueError] here;
    the library reads a few more notations (fractions of a second, reduced
    precision), which the data source does not emit, and rejects the empty
    string as the model does.  The year is printed on four digits. *)

Definition digit (c : ascii) : option nat :=
  let n := nat_of_ascii c in
  if (48 <=? n)%nat && (n <=? 57)%nat then Some (n - 48)%nat else None.

Fixpoint number_from (acc : nat) (s : string) : option nat :=
  match s with
  | EmptyString => Some acc
  | String c rest =>
      match digit c with
      | Some d => number_from (10 * acc + d) rest
      | None => None
      end
  end.

(** A field of exactly [width] decimal digits starting at [pos]. *)
Definition field (pos width : nat) (s : string) : option nat :=
  let f := substring pos width s in
  if (String.length f =? width)%nat then number_from 0 f else None.

Definition is_leap (y : nat) : bool :=
  ((y mod 4 =? 0) && negb (y mod 100 =? 0) || (y mod 400 =? 0))%nat.

Definition days_in_month (y m : nat) : nat :=
  match m with
  | 2 => if is_leap y then 29 else 28
  | 4 | 6 | 9 | 11 => 30
  | _ => 31
  end.

Definition parse_date (s : string) : option (nat * nat * nat) :=
  match field 0 4 s, field 5 2 s, field 8 2 s with
  | Some y, Some m, Some d =>
      if String.eqb (substring 4 1 s) "-" && String.eqb (substring 7 1 s) "-"
         && (1 <=? y)%nat && (1 <=? m)%nat && (m <=? 12)%nat
         && (1 <=? d)%nat && (d <=? days_in_month y m)%nat
      then Some (y, m, d) else None
  | _, _, _ => None
  end.

Definition valid_offset (s : string) : bool :=
  match field 1 2 s, field 4 2 s with
  | Some h, Some m =>
      (String.eqb (substring 0 1 s) "+" || String.eqb (substring 0 1 s) "-")
      && String.eqb (substring 3 1 s) ":"
      && (String.length s =? 6)%nat && (h <? 24)%nat && (m <? 60)%nat
  | _, _ => false
  end.

(** The part after the separator. *)
Definition valid_time (s : string) : bool :=
  match field 0 2 s, field 3 2 s, field 6 2 s with
  | Some h, Some m, Some sec =>
      String.eqb (substring 2 1 s) ":" && String.eqb (substring 5 1 s) ":"
      && (h <? 24)%nat && (m <? 60)%nat && (sec <? 60)%nat
      && ((String.length s =? 8)%nat
          || valid_offset (substring 8 (String.length s - 8) s))
  | _, _, _ => false
  end.

Definition fromisoformat (s : string) : result (nat * nat * nat) :=
  match parse_date s with
  | Some date =>
      if (String.length s =? 10)%nat
         || ((11 <=? String.length s)%nat
             && valid_time (substring 11 (String.length s - 11) s))
      then Ok date
      else Raise (ValueError ("Invalid isoformat string: '" +:+ s +:+ "'"))
  | None => Raise (ValueError ("Invalid isoformat string: '" +:+ s +:+ "'"))
  end.

(** Left padding with zeros, as [%Y], [%m] and [%d] do. *)
Fixpoint zeros (n : nat) : string :=
  match n with
  | O => EmptyString
  | S n' => String "0"%char (zeros n')
  end.

Definition pad (width n : nat) : string :=
  let digits := str_nat n in
  zeros (width - String.length digits) +:+ digits.

(** [date.strftime('%Y-%m-%d')] *)
Definition strftime_ymd (date : nat * nat * nat) : string :=
  let '(y, m, d) := date in
  pad 4 y +:+ "-" +:+ pad 2 m +:+ "-" +:+ pad 2 d.

End Py.

Notation "'let*' x := m 'in' k" := (Py.bind m (λ x, k))
  (at level 10, x name, m at level 100, k at level 200, only parsing).

(** ** update_database.py: the reconciler *)

Module Reconciler.

(** Lines written to standard output by [print]. *)
Definition log := list string.

(** The body of the loop of [merge_prs]: the list under construction is the
    caller's [existing_prs], appended to in place; [existing_urls] is the set
    built before the loop and is not touched by it. *)
Definition merge_prs_step (existing_urls : gset (option string))
    (st : list pull_request * log) (pr : pull_request) : list pull_request * log :=
  if decide (pr_url pr ∉ existing_urls)
  then (st.1 ++ [pr],
        st.2 ++ ["Added new PR: " +:+ get (pr_title pr) "Unknown" +:+ " to "
                   +:+ nameWithOwner pr "Unknown"])
  else st.

Definition merge_prs_io (existing_prs new_prs : list pull_request)
    : list pull_request * log :=
  let existing_urls : gset (option string) := list_to_set (pr_url <$> existing_prs) in
  foldl (merge_prs_step existing_urls) (existing_prs, []) new_prs.

(** The value [merge_prs] returns. *)
Definition merge_prs (existing_prs new_prs : list pull_request) : list pull_request :=
  (merge_prs_io existing_prs new_prs).1.

(** [existing.update(incoming)]: every key present in [incoming] is written
    over [existing]; a key absent from [incoming] leaves [existing] alone. *)
Definition update_field {A} (existing incoming : option A) : option A :=
  match incoming with
  | Some v => Some v
  | None => existing
  end.

Definition dict_update (existing incoming : repository) : repository :=
  {| repo_name := update_field (repo_name existing) (repo_name incoming);
     repo_description := update_field (repo_description existing) (repo_description incoming);
     repo_url := update_field (repo_url existing) (repo_url incoming);
     repo_isPrivate := update_field (repo_isPrivate existing) (repo_isPrivate incoming);
     repo_createdAt := update_field (repo_createdAt existing) (repo_createdAt incoming);
     repo_stargazerCount :=
       update_field (repo_stargazerCount existing) (repo_stargazerCount incoming);
     repo_isFork := update_field (repo_isFork existing) (repo_isFork incoming) |}.

(** [{repo.get('name'): repo for repo in existing_repos}].  The values of the
    dictionary are the record objects of the list themselves, not copies: a
    value is modelled by the position of its record in [existing_repos].  A
    later record with the same name replaces the earlier entry. *)
Fixpoint build_dict (pos : nat) (repos : list repository)
    (d : gmap (option string) nat) : gmap (option string) nat :=
  match repos with
  | [] => d
  | repo :: rest => build_dict (S pos) rest (<[repo_name repo := pos]> d)
  end.

Definition existing_dict (existing_repos : list repository) : gmap (option string) nat :=
  build_dict 0 existing_repos ∅.

(** The body of the loop of [merge_repos]. *)
Definition merge_repos_step (d : gmap (option string) nat)
    (st : list repository * log) (repo : repository) : list repository * log :=
  let name := repo_name repo in
  match d !! name with
  | Some pos => (alter (λ existing, dict_update existing repo) pos st.1, st.2)
  | None => (st.1 ++ [repo],
             st.2 ++ ["Added new repo: " +:+ get name "None"])
  end.

Definition merge_repos_io (existing_repos new_repos : list repository)
    : list repository * log :=
  foldl (merge_repos_step (existing_dict existing_repos)) (existing_repos, []) new_repos.

Definition merge_repos (existing_repos new_repos : list repository) : list repository :=
  (merge_repos_io existing_repos new_repos).1.

End Reconciler.

(** ** generate_contributions.py: the report builder *)

Module Report.
Import Py.

(** The dictionary [categories] of [categorize_repositories], with its keys in
    the order the literal lists them; this is the order [items()] yields. *)
Definition empty_categories : list (string * list repository) :=
  [("Julia Packages", []);
   ("Research Projects", []);
   ("Tools & Utilities", []);
   ("Documentation & Tutorials", []);
   ("Personal Projects", [])].

(** [any(keyword in name.lower() or keyword in description.lower()
         for keyword in keywords)] *)
Definition any_keyword (keywords : list string) (name description : string) : bool :=
  existsb (λ keyword, contains keyword (lower name) || contains keyword (lower description))
    keywords.

(** The body of the loop of [categorize_repositories]. *)
Definition categorize_step (categories : list (string * list repository))
    (repo : repository) : result (list (string * list repository)) :=
  if get (repo_isPrivate repo) false || get (repo_isFork repo) false then
    Ok categories
  else
    let* name := index "name" (repo_name repo) in
    let description := get (repo_description repo) "" in
    if endswith ".jl" name then
      Ok (dict_append "Julia Packages" repo categories)
    else if any_keyword ["tutorial"; "docs"; "documentation"; "guide"] name description then
      Ok (dict_append "Documentation & Tutorials" repo categories)
    else if any_keyword ["research"; "paper"; "parametron"; "quantum"; "oscillator"; "hopf"]
              name description then
      Ok (dict_append "Research Projects" repo categories)
    else if any_keyword ["tool"; "utility"; "engine"; "zotero"; "homebrew"]
              name description then
      Ok (dict_append "Tools & Utilities" repo categories)
    else if contains "github.io" name || contains "website" name || contains "hugo" name then
      Ok (dict_append "Personal Projects" repo categories)
    else
      Ok categories.

Fixpoint categorize_loop (categories : list (string * list repository))
    (repos : list repository) : result (list (string * list repository)) :=
  match repos with
  | [] => Ok categories
  | repo :: rest =>
      let* categories' := categorize_step categories repo in
      categorize_loop categories' rest
  end.

Definition categorize_repositories (repos : list repository)
    : result (list (string * list repository)) :=
  categorize_loop empty_categories repos.

(** [datetime.fromisoformat(created.replace('Z', '+00:00')).strftime('%Y-%m-%d')] *)
Definition created_date (created : string) : result string :=
  let* date := fromisoformat (replace_Z created) in
  Ok (strftime_ymd date).

(** The four assignments and the [md.append] that every loop over pull
    requests repeats: the line of one pull request. *)
Definition pr_line (pr : pull_request) : result string :=
  let repo_name := nameWithOwner pr "Unknown" in
  let title := get (pr_title pr) "No title" in
  let url := get (pr_url pr) "#" in
  let* date := created_date (get (pr_createdAt pr) "") in
  Ok ("- **[" +:+ repo_name +:+ "](" +:+ url +:+ ")** - " +:+ title
        +:+ " *(merged " +:+ date +:+ ")*").

(** [key=lambda x: x.get('createdAt', '')] *)
Definition created_lt (x y : pull_request) : bool :=
  String.ltb (get (pr_createdAt x) "") (get (pr_createdAt y) "").

(** [key=lambda x: (x.get('stargazerCount', 0), x.get('createdAt', ''))] *)
Definition stars_created_lt (x y : repository) : bool :=
  let sx := get (repo_stargazerCount x) 0%Z in
  let sy := get (repo_stargazerCount y) 0%Z in
  (sx <? sy)%Z
  || ((sx =? sy)%Z && String.ltb (get (repo_createdAt x) "") (get (repo_createdAt y) "")).

(** [key=lambda x: len(x[1])] and [key=lambda x: x[1]] *)
Definition len_lt {A} (x y : string * list A) : bool := (length x.2 <? length y.2)%nat.
Definition count_lt (x y : string * nat) : bool := (x.2 <? y.2)%nat.

(** The pull requests the report is about: not to a repository of the user,
    merged, most recent first. *)
Definition external_closed_prs (all_prs : list pull_request) : list pull_request :=
  sort_desc created_lt
    (List.filter
       (λ pr, negb (startswith "oameye/" (nameWithOwner pr ""))
              && bool_decide (pr_state pr = Some "merged"))
       all_prs).

(** The block of one repository in the projects section. *)
Definition repo_block (repo : repository) : result (list string) :=
  let* name := index "name" (repo_name repo) in
  let description := get (repo_description repo) "No description" in
  let* url := index "url" (repo_url repo) in
  let stars := get (repo_stargazerCount repo) 0%Z in
  let* date := created_date (get (repo_createdAt repo) "") in
  let star_badge := if (0 <? stars)%Z then "⭐ " +:+ str_int stars else "" in
  Ok (["- **[" +:+ name +:+ "](" +:+ url +:+ ")** " +:+ star_badge]
      ++ (if negb (String.eqb description "") then ["  - " +:+ description] else [])
      ++ ["  - *Created: " +:+ date +:+ "*"; ""; "#"; ""]).

(** One iteration of the loop over [categorized_repos.items()]. *)
Definition category_block (item : string * list repository) : result (list string) :=
  let '(category, category_repos) := item in
  match category_repos with
  | [] => Ok []
  | _ =>
      let* blocks := for_each_extend repo_block (sort_desc stars_created_lt category_repos) in
      Ok (["### " +:+ category; ""] ++ blocks)
  end.

(** The loop that fills [org_prs]. *)
Definition group_step (org_prs : list (string * list pull_request)) (pr : pull_request)
    : list (string * list pull_request) :=
  let repo_full_name := nameWithOwner pr "Unknown" in
  let org_name :=
    if contains "/" repo_full_name then before_slash repo_full_name else "Unknown" in
  if negb (String.eqb org_name "oameye") then dict_append org_name pr org_prs
  else org_prs.

Definition group_by_org (prs : list pull_request) : list (string * list pull_request) :=
  foldl group_step [] prs.

(** [pr.get('repository', {}).get('name', 'Unknown')] *)
Definition short_name (pr : pull_request) : string :=
  get (ref_name (get_repository pr)) "Unknown".

(** The branch [org == "QuantumEngineeredSystems"]. *)
Definition quantum_engineered_branch (prs : list pull_request) : result (list string) :=
  let merged_count := length prs in
  let repo_counts := foldl (λ counts pr, dict_incr (short_name pr) counts) [] prs in
  let* recent := for_each pr_line (take 5 (sort_desc created_lt prs)) in
  Ok (["*As main maintainer of QuantumEngineeredSystems packages:*";
       "- **" +:+ str_nat merged_count +:+ "** merged PRs";
       "- Active development across **" +:+ str_nat (length repo_counts)
         +:+ "** repositories:"]
      ++ ((λ item : string * nat, "  - **" +:+ item.1 +:+ "**: " +:+ str_nat item.2 +:+ " PRs")
            <$> sort_desc count_lt (repo_counts))
      ++ [""; "*Recent contributions (last 5):*"]
      ++ recent).

(** The loop that splits the pull requests of an organization between its
    flagship repository and the others; [repo_counts] is filled as in the
    source, where nothing reads it afterwards. *)
Definition split_step (flagship : string)
    (st : list (string * nat) * list pull_request * list pull_request)
    (pr : pull_request) : list (string * nat) * list pull_request * list pull_request :=
  let '(repo_counts, flagship_prs, other_prs) := st in
  let repo_name := short_name pr in
  let repo_counts := dict_incr repo_name repo_counts in
  if String.eqb repo_name flagship then (repo_counts, flagship_prs ++ [pr], other_prs)
  else (repo_counts, flagship_prs, other_prs ++ [pr]).

(** The branches [org == "JuliaDynamics"] and [org == "qojulia"].  The two
    are the same code up to the name of the flagship repository and the role
    printed after its count. *)
Definition flagship_branch (org flagship role : string) (prs : list pull_request)
    : result (list string) :=
  let '(repo_counts, flagship_prs, other_prs) := foldl (split_step flagship) ([], [], []) prs in
  let* summary :=
    match flagship_prs with
    | [] => Ok []
    | _ =>
        let* recent := for_each pr_line (take 3 (sort_desc created_lt flagship_prs)) in
        Ok (["**" +:+ flagship +:+ "** (" +:+ str_nat (length flagship_prs) +:+ " PRs) - *"
               +:+ role +:+ "*";
             "";
             "*Recent " +:+ flagship +:+ " contributions (last 3):*"]
            ++ recent ++ [""])
    end in
  let* others :=
    match other_prs with
    | [] => Ok []
    | _ =>
        let* lines := for_each pr_line (sort_desc created_lt other_prs) in
        Ok (["**Other " +:+ org +:+ " contributions:**"; ""] ++ lines)
    end in
  Ok (summary ++ others).

(** One iteration of the loop over the organizations. *)
Definition org_block (item : string * list pull_request) : result (list string) :=
  let '(org, prs) := item in
  let* body :=
    if String.eqb org "QuantumEngineeredSystems" then quantum_engineered_branch prs
    else if String.eqb org "JuliaDynamics" then
      flagship_branch "JuliaDynamics" "CriticalTransitions.jl"
        "Co-creator and main contributor" prs
    else if String.eqb org "qojulia" then
      flagship_branch "qojulia" "SecondQuantizedAlgebra.jl"
        "Major contributor and maintainer" prs
    else for_each pr_line (sort_desc created_lt prs) in
  Ok (["### " +:+ org +:+ " (" +:+ str_nat (length prs) +:+ " PRs)"; ""] ++ body ++ [""]).

(** The sections of the document, in the order [generate_markdown] writes
    them. *)
Definition header (today : string) : list string :=
  ["# Open Source Contributions";
   "";
   "> **Note**: This document is automatically generated using the GitHub CLI and updated regularly to reflect the latest contributions.";
   "";
   "*Generated on " +:+ today +:+ "*";
   ""].

Definition recent_section (all_prs : list pull_request) : result (list string) :=
  let* lines := for_each pr_line (take 10 (external_closed_prs all_prs)) in
  Ok (["## 🔥 Recent Merged Contributions (External Repositories)"; ""] ++ lines ++ [""]).

Definition projects_section (repos : list repository) : result (list string) :=
  let repos := List.filter (λ repo, negb (get (repo_isFork repo) false)) repos in
  let* categorized_repos := categorize_repositories repos in
  let* blocks := for_each_extend category_block categorized_repos in
  Ok (["## 🚀 My Open Source Projects"; ""] ++ blocks).

Definition organizations_section (all_prs : list pull_request) : result (list string) :=
  let org_prs := group_by_org (external_closed_prs all_prs) in
  let* blocks := for_each_extend org_block (sort_desc len_lt org_prs) in
  Ok (["## 📝 All Merged Pull Requests by Organization (External Repositories)"; ""]
      ++ blocks).

Definition footer : list string :=
  ["---"; ""; "*This document was automatically generated using the GitHub CLI.*"].

(** The list [md] at the end of [generate_markdown]; [today] is
    [datetime.now().strftime('%B %d, %Y')]. *)
Definition markdown_lines (today : string) (all_prs : list pull_request)
    (repos : list repository) : result (list string) :=
  let* recent := recent_section all_prs in
  let* projects := projects_section repos in
  let* organizations := organizations_section all_prs in
  Ok (header today ++ recent ++ projects ++ organizations ++ footer).

(** [generate_markdown]: [db] is what [load_database] returns, [None] when
    the database files are missing. *)
Definition generate_markdown (today : string)
    (db : option (list pull_request * list repository)) : result (option string) :=
  match db with
  | None => Ok None
  | Some (all_prs, repos) =>
      let* md := markdown_lines today all_prs repos in
      Ok (Some (join (String "010"%char EmptyString) md))
  end.

End Report.

(** ** update_database.py: the record store and the refresh *)

Module Store.
Import Py Reconciler.

(** [database/metadata.json] *)
Record metadata := Metadata {
  last_update : option string;
  total_prs : nat;
  total_repos : nat
}.

(** The files the scripts read and write, each with its parsed content,
    [None] when the file does not exist: [database/prs.json],
    [database/repos.json], [database/metadata.json] and [contributions.md].
    The scripts are the only writers, so a file that exists holds what
    [json.dump] wrote; directories are not modelled. *)
Record files := Files {
  prs_json : option (list pull_request);
  repos_json : option (list repository);
  metadata_json : option metadata;
  contributions_md : option string
}.

Definition no_files : files := Files None None None None.

(** The dictionary [db] of [update_database.py]. *)
Record database := Database {
  db_prs : list pull_request;
  db_repos : list repository;
  db_last_update : option string
}.

(** What a run of the GitHub CLI gives: a failure with its error output,
    output that is not JSON, or the parsed list of records. *)
Inductive gh_output (A : Type) :=
  | Failed (stderr : string)
  | Garbled
  | Records (records : list A).
Arguments Failed {A} stderr.
Arguments Garbled {A}.
Arguments Records {A} records.

Definition run_gh_command {A} (cmd : string) (output : gh_output A) : list A * log :=
  match output with
  | Failed stderr => ([], ["Error running command: " +:+ cmd; "Error: " +:+ stderr])
  | Garbled => ([], ["Failed to parse JSON from command: " +:+ cmd])
  | Records records => (records, [])
  end.

Definition load_database (fs : files) : database :=
  {| db_prs := match prs_json fs with Some prs => prs | None => [] end;
     db_repos := match repos_json fs with Some repos => repos | None => [] end;
     db_last_update :=
       match metadata_json fs with
       | Some metadata => last_update metadata
       | None => None
       end |}.

(** [now] is [datetime.now().isoformat()]. *)
Definition save_database (now : string) (db : database) (fs : files) : files :=
  {| prs_json := Some (db_prs db);
     repos_json := Some (db_repos db);
     metadata_json :=
       Some {| last_update := Some now;
               total_prs := length (db_prs db);
               total_repos := length (db_repos db) |};
     contributions_md := contributions_md fs |}.

(** The answers of the three commands of [fetch_new_data]. *)
Record github := GitHub {
  closed_prs : gh_output pull_request;
  open_prs : gh_output pull_request;
  user_repos : gh_output repository
}.

Definition fetch_new_data (last_update : option string) (gh : github)
    : list pull_request * list repository * log :=
  let '(closed_prs, log_closed) :=
    run_gh_command
      "gh search prs --author=oameye --state=closed --limit=1000 --json title,url,repository,createdAt,state,closedAt"
      (closed_prs gh) in
  let '(open_prs, log_open) :=
    run_gh_command
      "gh search prs --author=oameye --state=open --limit=1000 --json title,url,repository,createdAt,state"
      (open_prs gh) in
  let all_prs := closed_prs ++ open_prs in
  let '(repos, log_repos) :=
    run_gh_command
      "gh repo list oameye --limit=1000 --json name,description,url,isPrivate,createdAt,stargazerCount,isFork"
      (user_repos gh) in
  (all_prs, repos, ["Fetching data from GitHub..."] ++ log_closed ++ log_open ++ log_repos).

(** [db['last_update'] or 'Never'] *)
Definition or_never (last_update : option string) : string :=
  match last_update with
  | Some text => if String.eqb text "" then "Never" else text
  | None => "Never"
  end.

(** [update_database]: the dictionary it returns, the files it leaves and
    what it prints. *)
Definition update_database (now : string) (gh : github) (fs : files)
    : database * files * log :=
  let db := load_database fs in
  let log_loaded :=
    ["Loading existing database...";
     "Current database stats:";
     "  PRs: " +:+ str_nat (length (db_prs db));
     "  Repos: " +:+ str_nat (length (db_repos db));
     "  Last update: " +:+ or_never (db_last_update db)] in
  let '(new_prs, new_repos, log_fetch) := fetch_new_data (db_last_update db) gh in
  let log_fetched :=
    ["Fetched from GitHub:";
     "  PRs: " +:+ str_nat (length new_prs);
     "  Repos: " +:+ str_nat (length new_repos);
     "Merging data..."] in
  let '(prs, log_prs) := merge_prs_io (db_prs db) new_prs in
  let '(repos, log_repos) := merge_repos_io (db_repos db) new_repos in
  let db := {| db_prs := prs; db_repos := repos; db_last_update := db_last_update db |} in
  let fs := save_database now db fs in
  (db, fs,
   log_loaded ++ log_fetch ++ log_fetched ++ log_prs ++ log_repos
   ++ ["Saving database...";
       "âœ… Database updated successfully!";
       "Final stats:";
       "  Total PRs: " +:+ str_nat (length (db_prs db));
       "  Total Repos: " +:+ str_nat (length (db_repos db))]).

End Store.

(** ** generate_contributions.py: reading the store and writing the report *)

Module Generate.
Import Py Reconciler Store.

(** How a script ends: with an exit code, or with an exception that nothing
    catches. *)
Inductive ending :=
  | Exit (code : nat)
  | Uncaught (e : exception).

(** [len(s)]: the number of characters of a text, that is the bytes of its
    UTF-8 encoding that do not continue a character. *)
Fixpoint len (s : string) : nat :=
  match s with
  | EmptyString => 0
  | String c rest =>
      let n := nat_of_ascii c in
      if (128 <=? n)%nat && (n <? 192)%nat then len rest else S (len rest)
  end.

(** [load_database] of [generate_contributions.py]: [None] unless both lists
    are on disk. *)
Definition load_database (fs : files)
    : option (list pull_request * list repository) * log :=
  match prs_json fs, repos_json fs with
  | Some prs, Some repos =>
      (Some (prs, repos),
       ["📊 Loaded database: " +:+ str_nat (length prs) +:+ " PRs, "
          +:+ str_nat (length repos) +:+ " repos"])
  | _, _ =>
      (None, ["❌ Database not found! Please run 'python3 update_database.py' first."])
  end.

(** [generate_markdown()] on the files: the document, or [None] without a
    database, or the exception of the rendering. *)
Definition generate_markdown (today : string) (fs : files) : result (option string) * log :=
  let '(db, log_load) := load_database fs in
  (Report.generate_markdown today db, ["Loading data from database..."] ++ log_load).

(** The script: what it leaves on disk and prints, and how it ends. *)
Definition main (today : string) (fs : files) : ending * files * log :=
  let '(markdown_content, log_generate) := generate_markdown today fs in
  match markdown_content with
  | Raise e => (Uncaught e, fs, log_generate)
  | Ok None =>
      (Exit 1, fs,
       log_generate
       ++ ["❌ Failed to generate markdown. Please update the database first."])
  | Ok (Some content) =>
      (Exit 0,
       {| prs_json := prs_json fs;
          repos_json := repos_json fs;
          metadata_json := metadata_json fs;
          contributions_md := Some content |},
       log_generate
       ++ ["✅ Generated contributions.md successfully!";
           "📄 File size: " +:+ str_nat (len content) +:+ " characters"])
  end.

End Generate.

(** ** update_contributions.py: the workflow *)

Module Workflow.
Import Py Reconciler Store Generate.

(** What [subprocess.run] returns for a script. *)
Record completed := Completed {
  returncode : nat;
  stdout : string;
  stderr : string
}.

Definition newline : string := String "010"%char EmptyString.

(** The standard output of a script that made the given [print] calls. *)
Definition printed (lines : log) : string :=
  foldr (λ line text, line +:+ newline +:+ text) EmptyString lines.

(** The process of a script: exit code 1 and a traceback on standard error
    for an uncaught exception.  [traceback] is the text the interpreter
    writes for an exception. *)
Definition process (traceback : exception → string) (how : ending) (lines : log)
    : completed :=
  match how with
  | Exit code => Completed code (printed lines) EmptyString
  | Uncaught e => Completed 1 (printed lines) (traceback e)
  end.

Definition run_script (script_name description : string) (result : completed)
    : bool * log :=
  let log_start := ["🔄 " +:+ description +:+ "..."] in
  if negb (returncode result =? 0)%nat then
    (false, log_start ++ ["❌ Error running " +:+ script_name +:+ ":"; stderr result])
  else
    (true,
     log_start ++ (if negb (String.eqb (stdout result) "") then [stdout result] else [])).

(** [metadata.get('last_update', 'Unknown')] in an f-string. *)
Definition last_updated (metadata : Store.metadata) : string :=
  match last_update metadata with
  | Some text => text
  | None => "Unknown"
  end.

(** [main]: the two scripts run one after the other on the files, each in
    its own process; the exit code [main] returns, the files and what is
    printed. *)
Definition main (traceback : exception → string) (now today : string) (gh : github)
    (fs : files) : nat * files * log :=
  let log_start := ["🚀 Starting contributions update workflow..."; ""] in
  let '(_, fs, lines_update) := update_database now gh fs in
  let '(updated, log_update) :=
    run_script "update_database.py" "Updating contributions database"
      (process traceback (Exit 0) lines_update) in
  if negb updated then
    (1%nat, fs, log_start ++ log_update ++ ["❌ Failed to update database. Exiting."])
  else
    let '(how, fs, lines_generate) := Generate.main today fs in
    let '(generated, log_generate) :=
      run_script "generate_contributions.py" "Generating contributions.md"
        (process traceback how lines_generate) in
    if negb generated then
      (1%nat, fs,
       log_start ++ log_update ++ [""] ++ log_generate
       ++ ["❌ Failed to generate markdown. Exiting."])
    else
      (0%nat, fs,
       log_start ++ log_update ++ [""] ++ log_generate
       ++ [""; "✅ Workflow completed successfully!";
           "📄 Your contributions.md file has been updated with the latest data."]
       ++ match metadata_json fs with
          | Some metadata =>
              ["📊 Database stats: " +:+ str_nat (total_prs metadata) +:+ " PRs, "
                 +:+ str_nat (total_repos metadata) +:+ " repos";
               "🕒 Last updated: " +:+ last_updated metadata]
          | None => []
          end).

End Workflow.

(** ** Vocabulary of the statements *)

(** The URLs of a list of pull requests, [None] for a record without one. *)
Definition urls (prs : list pull_request) : list (option string) := pr_url <$> prs.

(** The names of a list of repositories, [None] for a record without one. *)
Definition names (repos : list repository) : list (option string) := repo_name <$> repos.

(** The stored records after the merge: each is updated by the fetched
    records that the lookup sends to its position. *)
Definition updated_records (stored fetched : list repository) : list repository :=
  imap (λ i old,
          foldl Reconciler.dict_update old
            (filter (λ repo, Reconciler.existing_dict stored !! repo_name repo = Some i) fetched))
       stored.

(** A field that [dict_update] writes over: the incoming value when the key
    is present in the incoming record, whatever the value, and the stored
    value otherwise. *)
Definition written_over {A} (field : repository → option A) : Prop :=
  ∀ existing incoming,
    field (Reconciler.dict_update existing incoming)
    = match field incoming with
      | Some v => Some v
      | None => field existing
      end.

(** *** Categories, in the words of the specification

    These two definitions follow the specification, not the script: the
    buckets are an ordered list of rules, each a label and a test on the name
    and the description of a repository; the rules are tried in order and the
    first whose test holds gives the bucket.  The script has a chain of
    [if]/[elif] instead ([Report.categorize_step]). *)
Definition spec_rules : list (string * (string → string → bool)) :=
  [("Julia Packages", λ name _, Py.endswith ".jl" name);
   ("Documentation & Tutorials",
    λ name description,
      existsb (λ keyword, Py.contains keyword (Py.lower name)
                          || Py.contains keyword (Py.lower description))
        ["tutorial"; "docs"; "documentation"; "guide"]);
   ("Research Projects",
    λ name description,
      existsb (λ keyword, Py.contains keyword (Py.lower name)
                          || Py.contains keyword (Py.lower description))
        ["research"; "paper"; "parametron"; "quantum"; "oscillator"; "hopf"]);
   ("Tools & Utilities",
    λ name description,
      existsb (λ keyword, Py.contains keyword (Py.lower name)
                          || Py.contains keyword (Py.lower description))
        ["tool"; "utility"; "engine"; "zotero"; "homebrew"]);
   ("Personal Projects",
    λ name _, Py.contains "github.io" name || Py.contains "website" name
              || Py.contains "hugo" name)].

Definition spec_first_match (name description : string) : option string :=
  fst <$> List.find (λ rule : string * (string → string → bool), rule.2 name description)
            spec_rules.

(** A private repository or a fork is not listed. *)
Definition hidden (repo : repository) : bool :=
  get (repo_isPrivate repo) false || get (repo_isFork repo) false.

(** The bucket of a repository, [None] when it is in none; a repository
    without description is tested with the empty description. *)
Definition assigned (repo : repository) : option string :=
  if hidden repo then None
  else match repo_name repo with
       | Some name => spec_first_match name (get (repo_description repo) "")
       | None => None
       end.

(** [categories[category]] *)
Definition bucket (category : string) (categories : list (string * list repository))
    : list repository :=
  default [] (snd <$> List.find (λ item : string * list repository,
                                   String.eqb item.1 category) categories).

(** The dictionary of the five buckets with the given contents. *)
Definition buckets_with (content : string → list repository)
    : list (string * list repository) :=
  [("Julia Packages", content "Julia Packages");
   ("Research Projects", content "Research Projects");
   ("Tools & Utilities", content "Tools & Utilities");
   ("Documentation & Tutorials", content "Documentation & Tutorials");
   ("Personal Projects", content "Personal Projects")].

(** The contents after the repositories [repos] have been categorized. *)
Definition extend (content : string → list repository) (repos : list repository)
    : string → list repository :=
  λ category, content category ++ filter (λ repo, assigned repo = Some category) repos.

(** A repository that is listed has a name. *)
Definition named_if_listed (repo : repository) : Prop :=
  hidden repo = false → is_Some (repo_name repo).

(** Most recent first, or largest first: no element comes before one with a
    strictly larger key. *)
Definition descending {A} (lt : A → A → bool) (l : list A) : Prop :=
  StronglySorted (λ x y, lt x y = false) l.

(** *** Pull requests in the report *)

(** A creation timestamp that the report can print. *)
Definition dated (created : option string) : Prop :=
  ∃ date, Report.created_date (get created "") = Py.Ok date.

(** A pull request to a repository that is not the user's. *)
Definition external (pr : pull_request) : Prop :=
  Py.startswith "oameye/" (nameWithOwner pr "") = false.

Definition merged (pr : pull_request) : Prop := pr_state pr = Some "merged".

(** The line of a document is the entry of a pull request or of a
    repository. *)
Definition is_entry (line : string) : bool := Py.startswith "- **[" line.

(** [pr] is to the repository [name] of its organization. *)
Definition targets (name : string) (pr : pull_request) : Prop :=
  Report.short_name pr = name.

#[global] Instance targets_dec name pr : Decision (targets name pr) :=
  decide (Report.short_name pr = name).

(** The organizations with a flagship repository: organization, repository
    and the role printed after the count. *)
Definition flagship_organizations : list (string * string * string) :=
  [("JuliaDynamics", "CriticalTransitions.jl", "Co-creator and main contributor");
   ("qojulia", "SecondQuantizedAlgebra.jl", "Major contributor and maintainer")].

(** The block [block] lists each of the [n] most recent pull requests to
    the repository [flagship]. *)
Definition lists_most_recent (n : nat) (flagship : string) (prs : list pull_request)
    (block : list string) : Prop :=
  ∀ pr, pr ∈ take n (Py.sort_desc Report.created_lt (filter (targets flagship) prs)) →
        ∃ line, Report.pr_line pr = Py.Ok line ∧ line ∈ block.

(** Every entry among [lines] is the line of one of [prs]. *)
Definition entries_from (prs : list pull_request) (lines : list string) : Prop :=
  ∀ line, line ∈ lines → is_entry line = true →
          ∃ pr, pr ∈ prs ∧ Report.pr_line pr = Py.Ok line.

(** What the report needs of a repository: a name when it is listed, and a
    URL and a printable creation timestamp when it is in a bucket. *)
Definition renderable (repo : repository) : Prop :=
  hidden repo = false →
  is_Some (repo_name repo)
  ∧ (is_Some (assigned repo) → is_Some (repo_url repo) ∧ dated (repo_createdAt repo)).

(** The keys of the dictionary of buckets. *)
Definition category_names : list string :=
  ["Julia Packages"; "Research Projects"; "Tools & Utilities";
   "Documentation & Tutorials"; "Personal Projects"].

(** *** Grouping *)

(** [d.get(key)] on a dictionary kept in insertion order. *)
Definition dict_get {A} (key : string) (d : list (string * A)) : option A :=
  snd <$> List.find (λ item : string * A, String.eqb item.1 key) d.

(** The [defaultdict(list)] filled by [d[key(x)].append(x)] for [x] in [xs]. *)
Definition grouped {A} (key : A → string) (xs : list A) : list (string * list A) :=
  foldl (λ d x, Py.dict_append (key x) x d) [] xs.

(** The [defaultdict(int)] filled by [d[key(x)] += 1] for [x] in [xs]. *)
Definition counted {A} (key : A → string) (xs : list A) : list (string * nat) :=
  foldl (λ d x, Py.dict_incr (key x) d) [] xs.

(** *** The store and the workflow *)

(** A command of the GitHub CLI that gave no records. *)
Definition without_records {A} (output : Store.gh_output A) : Prop :=
  match output with
  | Store.Records _ => False
  | _ => True
  end.

(** The files after the report has been written. *)
Definition with_report (content : string) (fs : Store.files) : Store.files :=
  {| Store.prs_json := Store.prs_json fs;
     Store.repos_json := Store.repos_json fs;
     Store.metadata_json := Store.metadata_json fs;
     Store.contributions_md := Some content |}.

(** The organization a pull request is filed under. *)
Definition organization (pr : pull_request) : string :=
  let repo_full_name := nameWithOwner pr "Unknown" in
  if Py.contains "/" repo_full_name then Py.before_slash repo_full_name else "Unknown".

#[global] Instance external_dec pr : Decision (external pr) :=
  decide (Py.startswith "oameye/" (nameWithOwner pr "") = false).

#[global] Instance merged_dec pr : Decision (merged pr) :=
  decide (pr_state pr = Some "merged").

(** ** Sample records *)

Definition sample_pr (org_repo repo url created : string) : pull_request :=
  {| pr_title := Some ("Fix " +:+ repo);
     pr_url := Some url;
     pr_repository := Some (RepositoryRef (Some repo) (Some org_repo));
     pr_createdAt := Some created;
     pr_state := Some "merged" |}.

Definition sample_repo (name description : string) (stars : Z) : repository :=
  {| repo_name := Some name;
     repo_description := Some description;
     repo_url := Some ("https://github.com/oameye/" +:+ name);
     repo_isPrivate := Some false;
     repo_createdAt := Some "2023-01-15T08:30:00Z";
     repo_stargazerCount := Some stars;
     repo_isFork := Some false |}.

(** Seven merged pull requests to the flagship of JuliaDynamics and two to
    another of its repositories. *)
Definition flagship_pr (day : string) : pull_request :=
  sample_pr "JuliaDynamics/CriticalTransitions.jl" "CriticalTransitions.jl"
    ("https://github.com/JuliaDynamics/CriticalTransitions.jl/pull/" +:+ day)
    ("2024-03-0" +:+ day +:+ "T10:00:00Z").

Definition other_pr (day : string) : pull_request :=
  sample_pr "JuliaDynamics/Attractors.jl" "Attractors.jl"
    ("https://github.com/JuliaDynamics/Attractors.jl/pull/" +:+ day)
    ("2024-02-0" +:+ day +:+ "T10:00:00Z").

Definition flagship_sample : list pull_request :=
  [flagship_pr "7"; flagship_pr "6"; flagship_pr "5"; flagship_pr "4"; flagship_pr "3";
   flagship_pr "2"; flagship_pr "1"; other_pr "2"; other_pr "1"].

(** A pull request to a repository of the user and one that is still open. *)
Definition own_pr : pull_request :=
  sample_pr "oameye/HarmonicBalance.jl" "HarmonicBalance.jl"
    "https://github.com/oameye/HarmonicBalance.jl/pull/3" "2024-03-09T10:00:00Z".

Definition open_pr : pull_request :=
  {| pr_title := Some "Draft";
     pr_url := Some "https://github.com/JuliaDynamics/Attractors.jl/pull/9";
     pr_repository :=
       Some (RepositoryRef (Some "Attractors.jl") (Some "JuliaDynamics/Attractors.jl"));
     pr_createdAt := Some "2024-03-08T10:00:00Z";
     pr_state := Some "open" |}.

(** Records with keys missing: a pull request without title and URL, one
    without creation timestamp, a repository without description and one
    without URL. *)
Definition untitled_pr : pull_request :=
  {| pr_title := None;
     pr_url := None;
     pr_repository :=
       Some (RepositoryRef (Some "Attractors.jl") (Some "JuliaDynamics/Attractors.jl"));
     pr_createdAt := Some "2024-03-05T10:00:00Z";
     pr_state := Some "merged" |}.

Definition undated_pr : pull_request :=
  {| pr_title := Some "Fix typo";
     pr_url := Some "https://github.com/JuliaDynamics/Attractors.jl/pull/4";
     pr_repository :=
       Some (RepositoryRef (Some "Attractors.jl") (Some "JuliaDynamics/Attractors.jl"));
     pr_createdAt := None;
     pr_state := Some "merged" |}.

Definition undescribed_repo : repository :=
  {| repo_name := Some "HarmonicBalance.jl";
     repo_description := None;
     repo_url := Some "https://github.com/oameye/HarmonicBalance.jl";
     repo_isPrivate := Some false;
     repo_createdAt := Some "2023-01-15T08:30:00Z";
     repo_stargazerCount := Some 12%Z;
     repo_isFork := Some false |}.

Definition repo_without_url : repository :=
  {| repo_name := Some "HarmonicBalance.jl";
     repo_description := Some "Harmonic balance";
     repo_url := None;
     repo_isPrivate := Some false;
     repo_createdAt := Some "2023-01-15T08:30:00Z";
     repo_stargazerCount := Some 12%Z;
     repo_isFork := Some false |}.

(** Fifteen merged pull requests to one repository, one a day. *)
Definition fifteen_prs : list pull_request :=
  (λ day, sample_pr "SciML/Symbolics.jl" "Symbolics.jl"
            ("https://github.com/SciML/Symbolics.jl/pull/" +:+ day)
            ("2024-01-" +:+ day +:+ "T09:00:00Z"))
  <$> ["07"; "15"; "01"; "11"; "03"; "09"; "05"; "13"; "02"; "14"; "04"; "12"; "06";
       "10"; "08"].

(** A store with one pull request and one repository, and answers of the
    GitHub CLI. *)
Definition sample_files : Store.files :=
  {| Store.prs_json := Some [other_pr "1"];
     Store.repos_json := Some [sample_repo "foo.jl" "old" 1];
     Store.metadata_json :=
       Some (Store.Metadata (Some "2024-03-01T12:00:00") 1 1);
     Store.contributions_md := None |}.

Definition sample_github : Store.github :=
  {| Store.closed_prs := Store.Records [other_pr "1"; flagship_pr "1"];
     Store.open_prs := Store.Records [open_pr];
     Store.user_repos := Store.Records [sample_repo "foo.jl" "new" 2; undescribed_repo] |}.

Definition failing_github : Store.github :=
  {| Store.closed_prs := Store.Failed "gh: not logged in";
     Store.open_prs := Store.Garbled;
     Store.user_repos := Store.Failed "gh: not logged in" |}.

(** ** Facts about the reconciler *)

Lemma filter_none {A} (P : A → Prop) `{!∀ x, Decision (P x)} (l : list A) :
  (∀ x, x ∈ l → ¬ P x) → filter P l = [].
Proof.
  induction l as [|x l IH]; intros Hnone; [done|].
  rewrite filter_cons_False by (apply Hnone; left).
  apply IH. intros y Hy. apply Hnone. by right.
Qed.

Section reconciler_facts.
Import Reconciler.

Implicit Types (existing incoming : list pull_request) (pr : pull_request).

Lemma merge_prs_loop (seen : gset (option string)) incoming existing out :
  (foldl (merge_prs_step seen) (existing, out) incoming).1
  = existing ++ filter (λ pr, pr_url pr ∉ seen) incoming.
Proof.
  revert existing out.
  induction incoming as [|pr incoming IH]; intros existing out; simpl.
  - by rewrite app_nil_r.
  - unfold merge_prs_step at 2. rewrite filter_cons.
    destruct (decide (pr_url pr ∉ seen)); simpl.
    + rewrite IH. by rewrite <- app_assoc.
    + apply IH.
Qed.

(** [merge_prs] keeps the stored list and appends, in their order, the
    incoming records whose URL is not a stored one. *)
Lemma merge_prs_unfold existing incoming :
  merge_prs existing incoming
  = existing ++ filter (λ pr, pr_url pr ∉ urls existing) incoming.
Proof.
  unfold merge_prs, merge_prs_io. rewrite merge_prs_loop. f_equal.
  apply list_filter_iff. intros pr. unfold urls.
  by rewrite elem_of_list_to_set.
Qed.

Lemma urls_merge_prs existing incoming (u : option string) :
  u ∈ urls (merge_prs existing incoming) ↔ u ∈ urls existing ∨ u ∈ urls incoming.
Proof.
  rewrite merge_prs_unfold. unfold urls. rewrite fmap_app, elem_of_app.
  split.
  - intros [H|H]; [by left|]. right.
    apply list_elem_of_fmap in H as (pr & -> & Hpr).
    apply list_elem_of_filter in Hpr as [_ Hpr].
    apply list_elem_of_fmap. eauto.
  - intros [H|H]; [by left|].
    destruct (decide (u ∈ pr_url <$> existing)) as [Hin|Hout]; [by left|]. right.
    apply list_elem_of_fmap in H as (pr & -> & Hpr).
    apply list_elem_of_fmap. exists pr. split; [done|].
    apply list_elem_of_filter. by split.
Qed.

(** C9. The merged list is at least as long as the stored one, and exactly
    as long if and only if the URL of every incoming record is a stored
    one. *)
Theorem merge_prs_monotonic existing incoming :
  (length existing ≤ length (merge_prs existing incoming))%nat
  ∧ (length (merge_prs existing incoming) = length existing
     ↔ ∀ pr, pr ∈ incoming → pr_url pr ∈ urls existing).
Proof.
  rewrite merge_prs_unfold, length_app. split; [lia|].
  split.
  - intros Hlen pr Hpr.
    destruct (decide (pr_url pr ∈ urls existing)) as [|Hout]; [done|].
    assert (pr ∈ filter (λ pr, pr_url pr ∉ urls existing) incoming) as Hin
      by (apply list_elem_of_filter; done).
    destruct (filter _ incoming); [by apply elem_of_nil in Hin | simpl in Hlen; lia].
  - intros Hall.
    assert (filter (λ pr, pr_url pr ∉ urls existing) incoming = []) as ->; [|simpl; lia].
    apply filter_none. intros pr Hpr Hout. by apply Hout, Hall.
Qed.

(** C8. Merging the same incoming list a second time changes nothing: the
    result is the very list of the first merge, so the records are the same
    and the second merge adds no URL twice. *)
Theorem merge_prs_idempotent existing incoming :
  merge_prs (merge_prs existing incoming) incoming = merge_prs existing incoming.
Proof.
  rewrite (merge_prs_unfold (merge_prs existing incoming)).
  assert (filter (λ pr, pr_url pr ∉ urls (merge_prs existing incoming)) incoming = [])
    as ->; [|by rewrite app_nil_r].
  apply filter_none. intros pr Hpr Hout. apply Hout.
  apply urls_merge_prs. right. apply list_elem_of_fmap. eauto.
Qed.

(** *** [merge_repos] *)

Implicit Types (repos stored fetched : list repository) (repo : repository).

(** What the lookup dictionary holds: for a name, the position of the last
    record of the list with that name. *)
Lemma build_dict_lookup repos (pos : nat) (d : gmap (option string) nat)
    (name : option string) (i : nat) :
  build_dict pos repos d !! name = Some i
  ↔ ((name ∉ names repos) ∧ d !! name = Some i)
    ∨ (∃ k : nat, i = (pos + k)%nat ∧ names repos !! k = Some name
                  ∧ name ∉ drop (S k) (names repos)).
Proof.
  revert pos d. induction repos as [|repo repos IH]; intros pos d; simpl.
  - split.
    + intros H. left. split; [apply not_elem_of_nil | done].
    + intros [[_ H]|(k & _ & H & _)]; [done|]. by rewrite lookup_nil in H.
  - rewrite IH. clear IH. unfold names. rewrite not_elem_of_cons. split.
    + intros [[Hout Hd]|(k & -> & Hk & Hdrop)].
      * destruct (decide (repo_name repo = name)) as [<-|Hne].
        -- rewrite lookup_insert_eq in Hd. injection Hd as <-.
           right. exists 0%nat. split; [lia|]. split; [done|]. by rewrite drop_0.
        -- rewrite lookup_insert_ne in Hd by done. left. done.
      * right. exists (S k). split; [lia|]. done.
    + intros [[[Hne Hout] Hd]|(k & -> & Hk & Hdrop)].
      * left. split; [done|]. by rewrite lookup_insert_ne.
      * destruct k as [|k]; simpl in *.
        -- injection Hk as Hk. rewrite drop_0 in Hdrop. left. split; [done|].
           rewrite Hk, lookup_insert_eq. f_equal. lia.
        -- right. exists k. split; [lia|]. done.
Qed.

Lemma existing_dict_Some stored (name : option string) (i : nat) :
  existing_dict stored !! name = Some i
  ↔ names stored !! i = Some name ∧ name ∉ drop (S i) (names stored).
Proof.
  unfold existing_dict. rewrite build_dict_lookup. split.
  - intros [[_ H]|(k & -> & H)]; [by rewrite lookup_empty in H | done].
  - intros H. right. by exists i.
Qed.

Lemma existing_dict_None stored (name : option string) :
  existing_dict stored !! name = None ↔ name ∉ names stored.
Proof.
  split.
  - intros Hnone Hin.
    assert (∃ i, existing_dict stored !! name = Some i) as [i Hi]; [|congruence].
    clear Hnone. unfold names in *.
    induction stored as [|repo stored IH] using rev_ind; [by apply elem_of_nil in Hin|].
    rewrite fmap_app in Hin. simpl in Hin.
    destruct (decide (name = repo_name repo)) as [->|Hne].
    + exists (length stored). apply existing_dict_Some. unfold names.
      rewrite fmap_app. simpl. split.
      * rewrite lookup_app_r by (rewrite length_fmap; lia).
        by rewrite length_fmap, Nat.sub_diag.
      * rewrite drop_ge by (rewrite length_app, length_fmap; simpl; lia).
        apply not_elem_of_nil.
    + apply elem_of_app in Hin as [Hin|Hin]; [|by apply list_elem_of_singleton in Hin].
      destruct (IH Hin) as [i Hi]. exists i.
      apply existing_dict_Some in Hi as [Hi Hdrop]. apply existing_dict_Some.
      unfold names in *. rewrite fmap_app. simpl. split.
      * apply lookup_app_l_Some. done.
      * apply lookup_lt_Some in Hi. rewrite length_fmap in Hi.
        rewrite drop_app_le by (rewrite length_fmap; lia).
        rewrite not_elem_of_app. split; [done|]. by rewrite list_elem_of_singleton.
  - intros Hout. destruct (existing_dict stored !! name) as [i|] eqn:Hi; [|done].
    apply existing_dict_Some in Hi as [Hi _]. exfalso. apply Hout.
    eapply list_elem_of_lookup_2. done.
Qed.

(** The loop of [merge_repos], from a list [base ++ appended] whose part
    [base] holds every position of the dictionary. *)
Lemma merge_repos_loop (d : gmap (option string) nat) fetched base appended out :
  (∀ name i, d !! name = Some i → (i < length base)%nat) →
  (foldl (merge_repos_step d) (base ++ appended, out) fetched).1
  = imap (λ i old,
            foldl dict_update old (filter (λ repo, d !! repo_name repo = Some i) fetched))
         base
    ++ appended ++ filter (λ repo, d !! repo_name repo = None) fetched.
Proof.
  revert base appended out.
  induction fetched as [|repo fetched IH]; intros base appended out Hd.
  - simpl. rewrite app_nil_r. f_equal. apply list_eq. intros i.
    rewrite list_lookup_imap. by destruct (base !! i).
  - simpl. unfold merge_repos_step at 2. simpl.
    destruct (d !! repo_name repo) as [pos|] eqn:Hpos.
    + rewrite alter_app_l by eauto.
      rewrite IH by (intros ???; rewrite length_alter; eauto).
      rewrite (filter_cons_False (λ repo, d !! repo_name repo = None)) by congruence.
      f_equal. apply list_eq. intros i. rewrite !list_lookup_imap, list_lookup_alter.
      destruct (decide (pos = i)) as [->|Hne].
      * rewrite filter_cons_True by done. by destruct (base !! i).
      * rewrite filter_cons_False by congruence. done.
    + rewrite <- app_assoc. rewrite IH by done.
      rewrite (filter_cons_True (λ repo, d !! repo_name repo = None)) by done.
      rewrite <- app_assoc. simpl. f_equal.
      apply imap_ext. intros i old _. by rewrite filter_cons_False by congruence.
Qed.

Lemma dict_update_same_name old (updates : list repository) :
  Forall (λ repo, repo_name repo = repo_name old) updates →
  repo_name (foldl dict_update old updates) = repo_name old.
Proof.
  revert old. induction updates as [|repo updates IH]; intros old Hall; [done|].
  apply Forall_cons in Hall as [Hrepo Hall]. simpl.
  assert (repo_name (dict_update old repo) = repo_name old) as Hname.
  { simpl. rewrite Hrepo. by destruct (repo_name old). }
  rewrite IH; [done|]. by rewrite Hname.
Qed.

Lemma merge_repos_unfold stored fetched :
  merge_repos stored fetched
  = updated_records stored fetched
    ++ filter (λ repo, repo_name repo ∉ names stored) fetched.
Proof.
  unfold merge_repos, merge_repos_io, updated_records.
  rewrite <- (app_nil_r stored) at 2. rewrite merge_repos_loop.
  - simpl. f_equal. apply list_filter_iff. intros repo. apply existing_dict_None.
  - intros name i [Hi _]%existing_dict_Some. apply lookup_lt_Some in Hi.
    unfold names in Hi. by rewrite length_fmap in Hi.
Qed.

Lemma updated_records_lookup stored fetched (i : nat) old :
  stored !! i = Some old →
  updated_records stored fetched !! i
  = Some (if decide (repo_name old ∈ drop (S i) (names stored)) then old
          else foldl dict_update old
                 (filter (λ repo, repo_name repo = repo_name old) fetched)).
Proof.
  intros Hold. unfold updated_records. rewrite list_lookup_imap, Hold. simpl. f_equal.
  assert (names stored !! i = Some (repo_name old)) as Hname
    by (unfold names; by rewrite list_lookup_fmap, Hold).
  destruct (decide (repo_name old ∈ drop (S i) (names stored))) as [Hlater|Hlast].
  - rewrite filter_none; [done|]. intros repo _ [Hi Hdrop]%existing_dict_Some.
    apply Hdrop. congruence.
  - f_equal. apply list_filter_iff. intros repo.
    rewrite existing_dict_Some. split.
    + intros [Hi _]. congruence.
    + intros ->. done.
Qed.

Lemma updated_records_names stored fetched :
  names (updated_records stored fetched) = names stored.
Proof.
  apply list_eq. intros i. unfold names. rewrite !list_lookup_fmap.
  destruct (stored !! i) as [old|] eqn:Hold.
  - rewrite (updated_records_lookup _ _ _ _ Hold). simpl. f_equal. case_decide; [done|].
    apply dict_update_same_name, Forall_forall. by intros repo [? _]%list_elem_of_filter.
  - unfold updated_records. by rewrite list_lookup_imap, Hold.
Qed.

(** The part of the uniqueness invariants that the merges keep: when the
    fetched list itself has no two records with one key, neither has the
    result. *)
Lemma NoDup_app_filter_fresh {A B} `{EqDecision B} (key : A → B) (stored fetched : list A) :
  NoDup (key <$> stored) → NoDup (key <$> fetched) →
  NoDup ((key <$> stored) ++ (key <$> filter (λ x, key x ∉ key <$> stored) fetched)).
Proof.
  intros Hstored Hfetched. apply NoDup_app. split; [done|]. split.
  - intros k Hk (x & -> & [Hfresh _]%list_elem_of_filter)%list_elem_of_fmap. done.
  - eapply sublist_NoDup; [exact Hfetched | apply fmap_sublist, sublist_filter].
Qed.

Lemma merge_prs_NoDup existing incoming :
  NoDup (urls existing) → NoDup (urls incoming) →
  NoDup (urls (merge_prs existing incoming)).
Proof.
  intros. rewrite merge_prs_unfold. unfold urls. rewrite fmap_app.
  by apply NoDup_app_filter_fresh.
Qed.

Lemma merge_repos_NoDup stored fetched :
  NoDup (names stored) → NoDup (names fetched) →
  NoDup (names (merge_repos stored fetched)).
Proof.
  intros. rewrite merge_repos_unfold. unfold names at 1. rewrite fmap_app.
  fold (names (updated_records stored fetched)). rewrite updated_records_names.
  by apply NoDup_app_filter_fresh.
Qed.

(** C5. [merge_repos] returns the stored records, each at its position and
    under its name, followed by the fetched records whose name is not a stored
    one, in the order they were fetched.  A stored record is updated with
    [dict_update] by every fetched record of its name, one after the other
    (when several stored records share a name, the last of them is the one
    the lookup holds and the one updated).  [dict_update] writes every field
    that is present in the fetched record, empty values included.  When every
    fetched name is a stored one, the number of records does not change. *)
Theorem merge_repos_updates_in_place stored fetched :
  (∃ updated,
      merge_repos stored fetched
      = updated ++ filter (λ repo, repo_name repo ∉ names stored) fetched
      ∧ length updated = length stored
      ∧ names updated = names stored
      ∧ (∀ (i : nat) old, stored !! i = Some old →
           updated !! i
           = Some (if decide (repo_name old ∈ drop (S i) (names stored)) then old
                   else foldl dict_update old
                          (filter (λ repo, repo_name repo = repo_name old) fetched)))
      ∧ (names fetched ⊆ names stored →
           length (merge_repos stored fetched) = length stored))
  ∧ written_over repo_name ∧ written_over repo_description ∧ written_over repo_url
  ∧ written_over repo_isPrivate ∧ written_over repo_createdAt
  ∧ written_over repo_stargazerCount ∧ written_over repo_isFork.
Proof.
  split; [|by repeat split].
  exists (updated_records stored fetched).
  split; [apply merge_repos_unfold|].
  split; [apply length_imap|].
  split; [apply updated_records_names|].
  split; [apply updated_records_lookup|].
  intros Hsub. rewrite merge_repos_unfold, length_app, filter_none.
  - unfold updated_records. rewrite length_imap. simpl. lia.
  - intros repo Hrepo Hout. apply Hout, Hsub. unfold names.
    apply list_elem_of_fmap. eauto.
Qed.

(** C2, at its failing input.  Two fetched records with one URL that is not
    a stored one are both appended: the set of stored URLs is built before
    the loop and an appended URL is not added to it. *)
Theorem merge_prs_appends_incoming_duplicate :
  let first := sample_pr "JuliaDynamics/Attractors.jl" "Attractors.jl"
                 "https://github.com/JuliaDynamics/Attractors.jl/pull/1"
                 "2024-03-05T10:00:00Z" in
  let second := sample_pr "JuliaDynamics/Attractors.jl" "Attractors.jl"
                  "https://github.com/JuliaDynamics/Attractors.jl/pull/1"
                  "2024-03-05T10:00:01Z" in
  merge_prs [] [first; second] = [first; second]
  ∧ pr_url first = pr_url second
  ∧ ¬ NoDup (urls (merge_prs [] [first; second])).
Proof.
  intros first second.
  assert (merge_prs [] [first; second] = [first; second]) as Hrun by (by vm_compute).
  split; [done|]. split; [done|]. rewrite Hrun.
  intros Hnodup. apply NoDup_cons in Hnodup as [Hout _]. apply Hout. left.
Qed.

(** C4, at its failing input.  Two fetched records with one name that is not
    a stored one are both appended: the lookup of stored names is built
    before the loop and an appended record is not added to it. *)
Theorem merge_repos_appends_incoming_duplicate :
  let first := sample_repo "HarmonicBalance.jl" "Harmonic balance" 10 in
  let second := sample_repo "HarmonicBalance.jl" "Harmonic balance" 11 in
  merge_repos [] [first; second] = [first; second]
  ∧ repo_name first = repo_name second
  ∧ ¬ NoDup (names (merge_repos [] [first; second])).
Proof.
  intros first second.
  assert (merge_repos [] [first; second] = [first; second]) as Hrun by (by vm_compute).
  split; [done|]. split; [done|]. rewrite Hrun.
  intros Hnodup. apply NoDup_cons in Hnodup as [Hout _]. apply Hout. left.
Qed.

End reconciler_facts.

(** ** Facts about the Python library model *)

Section py_facts.
Import Py.

Lemma bind_Ok {A B} (m : result A) (k : A → result B) (b : B) :
  bind m k = Ok b ↔ ∃ a, m = Ok a ∧ k a = Ok b.
Proof.
  destruct m as [a|e]; simpl.
  - split; [by exists a | by intros (? & [= <-] & ?)].
  - split; [done | by intros (? & ? & ?)].
Qed.

Lemma for_each_Ok {A B} (f : A → result B) (xs : list A) (ys : list B) :
  for_each f xs = Ok ys ↔ Forall2 (λ x y, f x = Ok y) xs ys.
Proof.
  revert ys. induction xs as [|x xs IH]; intros ys; simpl.
  - split; [intros [= <-]; constructor | by intros ->%Forall2_nil_inv_l].
  - rewrite bind_Ok. split.
    + intros (y & Hy & (ys' & Hys & [= <-])%bind_Ok).
      constructor; [done | by apply IH].
    + intros (y & ys' & Hy & Hys & ->)%Forall2_cons_inv_l.
      exists y. split; [done|]. apply bind_Ok. exists ys'. split; [by apply IH | done].
Qed.

(** A loop over records that can all be rendered renders every one of them,
    in order. *)
Lemma for_each_total {A B} (f : A → result B) (xs : list A) :
  Forall (λ x, ∃ y, f x = Ok y) xs →
  ∃ ys, for_each f xs = Ok ys ∧ length ys = length xs.
Proof.
  induction 1 as [|x xs [y Hy] _ (ys & Hys & Hlen)]; simpl.
  - by exists [].
  - exists (y :: ys). rewrite Hy, Hys. simpl. by rewrite Hlen.
Qed.

Lemma for_each_elem_of {A B} (f : A → result B) (xs : list A) (ys : list B) (y : B) :
  for_each f xs = Ok ys → y ∈ ys → ∃ x, x ∈ xs ∧ f x = Ok y.
Proof.
  intros HF%for_each_Ok Hy.
  induction HF as [|x y' xs ys Hxy _ IH]; [by apply elem_of_nil in Hy|].
  apply elem_of_cons in Hy as [->|Hy].
  - exists x. split; [left | done].
  - destruct (IH Hy) as (x' & ? & ?). exists x'. split; [by right | done].
Qed.

Lemma for_each_extend_elem_of {A B} (f : A → result (list B)) (xs : list A)
    (ys : list B) (y : B) :
  for_each_extend f xs = Ok ys → y ∈ ys → ∃ x block, x ∈ xs ∧ f x = Ok block ∧ y ∈ block.
Proof.
  unfold for_each_extend. intros (blocks & Hblocks & [= <-])%bind_Ok Hy.
  apply list_elem_of_join in Hy as (block & Hy & Hblock).
  destruct (for_each_elem_of _ _ _ _ Hblocks Hblock) as (x & ? & ?). eauto.
Qed.

Section sorting.
Context {A : Type} (lt : A → A → bool).

Lemma insert_desc_perm (x : A) (l : list A) : insert_desc lt x l ≡ₚ x :: l.
Proof.
  induction l as [|y l IH]; simpl; [done|].
  destruct (lt x y); [|done]. rewrite IH. apply Permutation_swap.
Qed.

Lemma sort_desc_perm (l : list A) : sort_desc lt l ≡ₚ l.
Proof.
  induction l as [|x l IH]; simpl; [done|].
  unfold sort_desc in *. simpl. by rewrite insert_desc_perm, IH.
Qed.

Lemma sort_desc_elem_of (l : list A) (x : A) : x ∈ sort_desc lt l ↔ x ∈ l.
Proof. by rewrite sort_desc_perm. Qed.

Lemma sort_desc_length (l : list A) : length (sort_desc lt l) = length l.
Proof. by rewrite sort_desc_perm. Qed.

(** The comparison of keys: an order that is total on the keys. *)
Hypothesis lt_asym : ∀ x y, lt x y = true → lt y x = false.
Hypothesis lt_negtrans : ∀ x y z, lt x y = false → lt y z = false → lt x z = false.

Lemma insert_desc_descending (x : A) (l : list A) :
  descending lt l → descending lt (insert_desc lt x l).
Proof.
  unfold descending. induction 1 as [|y l Hl IH Hy]; simpl.
  - repeat constructor.
  - destruct (lt x y) eqn:Hxy.
    + constructor; [done|]. rewrite insert_desc_perm. constructor; [eauto | done].
    + constructor; [by constructor|]. constructor; [done|].
      eapply Forall_impl; [exact Hy|]. intros z Hz. simpl in Hz. eauto.
Qed.

Lemma sort_desc_descending (l : list A) : descending lt (sort_desc lt l).
Proof.
  induction l as [|x l IH]; [constructor|].
  by apply insert_desc_descending.
Qed.

End sorting.

Lemma ltb_asym (s t : string) : String.ltb s t = true → String.ltb t s = false.
Proof.
  unfold String.ltb. rewrite (String.compare_antisym t s).
  by destruct (String.compare s t).
Qed.

Lemma ltb_lt (s t : string) : String.ltb s t = true ↔ OrderedTypeEx.String_as_OT.lt s t.
Proof.
  rewrite <- OrderedTypeEx.String_as_OT.cmp_lt. unfold String.ltb.
  change OrderedTypeEx.String_as_OT.cmp with String.compare.
  by destruct (String.compare s t).
Qed.

Lemma ltb_negtrans (s t u : string) :
  String.ltb s t = false → String.ltb t u = false → String.ltb s u = false.
Proof.
  intros Hst Htu. destruct (String.ltb s u) eqn:Hsu; [|done]. exfalso.
  destruct (String.compare t s) eqn:Hts.
  - apply String.compare_eq_iff in Hts as ->. congruence.
  - assert (String.ltb t s = true) as Hlt by (unfold String.ltb; by rewrite Hts).
    apply ltb_lt in Hlt, Hsu.
    assert (String.ltb t u = true); [|congruence].
    apply ltb_lt. eapply OrderedTypeEx.String_as_OT.lt_trans; eauto.
  - unfold String.ltb in Hst. rewrite String.compare_antisym, Hts in Hst. done.
Qed.

(** The timestamps of the data source are printed as dates; the empty
    string, which stands for a missing timestamp, is not one. *)
Example created_date_utc : Report.created_date "2024-03-05T10:00:00Z" = Ok "2024-03-05".
Proof. reflexivity. Qed.

Example created_date_empty :
  Report.created_date "" = Raise (ValueError "Invalid isoformat string: ''").
Proof. reflexivity. Qed.

Example sort_desc_stable :
  sort_desc (λ x y : nat * string, (x.1 <? y.1)%nat)
    [(1%nat, "a"); (2%nat, "b"); (1%nat, "c"); (2%nat, "d")]
  = [(2%nat, "b"); (2%nat, "d"); (1%nat, "a"); (1%nat, "c")].
Proof. reflexivity. Qed.

Lemma prefix_empty (s : string) : String.prefix "" s = true.
Proof. by destruct s. Qed.

Lemma prefix_app_l (p q s : string) :
  String.prefix (p +:+ q) s = true → String.prefix p s = true.
Proof.
  revert s. induction p as [|a p IH]; intros s; [by rewrite prefix_empty|].
  change (String a p +:+ q) with (String a (p +:+ q)).
  destruct s as [|b s]; simpl; [done|]. destruct (ascii_dec a b); [apply IH | done].
Qed.

(** A prefix that lacks the character [c] and fits [n] followed by [c] fits
    [n] alone. *)
Lemma prefix_app_absent (p n : string) (c : ascii) (rest : string) :
  Forall (λ a, a ≠ c) (list_ascii_of_string p) →
  String.prefix p (n +:+ String c rest) = true → String.prefix p n = true.
Proof.
  revert n. induction p as [|a p IH]; intros n Habsent Hprefix; [by rewrite prefix_empty|].
  simpl in Habsent. apply Forall_cons in Habsent as [Hac Habsent].
  destruct n as [|b n].
  - change ("" +:+ String c rest) with (String c rest) in Hprefix. simpl in Hprefix.
    by destruct (ascii_dec a c).
  - change (String b n +:+ String c rest) with (String b (n +:+ String c rest)) in Hprefix.
    simpl in *. destruct (ascii_dec a b); [by apply IH | done].
Qed.

(** The decimal notation of a number starts with a digit. *)
Lemma str_nat_head (n : nat) :
  ∃ c rest, str_nat n = String c rest ∧ c ≠ "["%char ∧ c ≠ " "%char.
Proof.
  unfold str_nat, NilZero.string_of_uint.
  destruct (Nat.to_uint n); simpl; eexists _, _; (split; [reflexivity|done]).
Qed.

End py_facts.

(** ** Facts about the report builder *)

Section categorize_facts.
Import Py Report.

Implicit Types (repos : list repository) (repo : repository).

Lemma first_match_label name description category :
  spec_first_match name description = Some category →
  category ∈ ["Julia Packages"; "Documentation & Tutorials"; "Research Projects";
              "Tools & Utilities"; "Personal Projects"].
Proof.
  unfold spec_first_match, spec_rules. cbn [List.find snd].
  repeat (match goal with
          | |- context [if ?test then _ else _] => destruct test
          end; [intros [= <-]; solve [repeat constructor]|]).
  done.
Qed.

(** The chain of tests of the loop body is the first match of the rules. *)
Lemma categorize_step_first_match categories repo :
  named_if_listed repo →
  categorize_step categories repo
  = Ok (match assigned repo with
        | Some category => dict_append category repo categories
        | None => categories
        end).
Proof.
  unfold named_if_listed, categorize_step, assigned, hidden. intros Hnamed.
  destruct (get (repo_isPrivate repo) false || get (repo_isFork repo) false); [done|].
  destruct Hnamed as [name Hname]; [done|]. rewrite Hname.
  unfold spec_first_match, any_keyword, spec_rules. cbn [List.find snd bind index].
  repeat (match goal with
          | |- context [if ?test then _ else _] => destruct test
          end; [reflexivity|]).
  reflexivity.
Qed.

Lemma categorize_step_assigned content repo :
  named_if_listed repo →
  categorize_step (buckets_with content) repo = Ok (buckets_with (extend content [repo])).
Proof.
  intros Hnamed. rewrite categorize_step_first_match by done. f_equal.
  unfold extend, buckets_with. rewrite !filter_cons, !filter_nil.
  destruct (assigned repo) as [category|] eqn:Hassigned.
  - assert (category ∈ ["Julia Packages"; "Documentation & Tutorials";
                        "Research Projects"; "Tools & Utilities"; "Personal Projects"])
      as Hlabel.
    { unfold assigned in Hassigned. destruct (hidden repo); [done|].
      destruct (repo_name repo); [|done]. by eapply first_match_label. }
    repeat (apply elem_of_cons in Hlabel as [->|Hlabel];
            [repeat case_decide; try congruence; cbn; by rewrite ?app_nil_r|]).
    by apply elem_of_nil in Hlabel.
  - repeat case_decide; try congruence. by rewrite !app_nil_r.
Qed.

Lemma categorize_loop_assigned content repos :
  Forall named_if_listed repos →
  categorize_loop (buckets_with content) repos = Ok (buckets_with (extend content repos)).
Proof.
  intros Hnamed. revert content.
  induction Hnamed as [|repo repos Hrepo _ IH]; intros content.
  - simpl. f_equal. unfold buckets_with, extend.
    by rewrite !filter_nil, !app_nil_r.
  - simpl. rewrite categorize_step_assigned by done. simpl. rewrite IH. f_equal.
    assert (∀ category,
      extend (extend content [repo]) repos category = extend content (repo :: repos) category)
      as Hext.
    { intros category. unfold extend. rewrite <- app_assoc. f_equal.
      rewrite !filter_cons, filter_nil. by case_decide. }
    unfold buckets_with. by rewrite !Hext.
Qed.

Lemma bucket_buckets_with content category :
  bucket category (buckets_with content)
  = if decide (category ∈ category_names) then content category else [].
Proof.
  unfold bucket, buckets_with, category_names. cbn [List.find fst].
  repeat (match goal with
          | |- context [String.eqb ?key category] =>
              destruct (String.eqb_spec key category) as [<-|?]
          end; [rewrite decide_True by solve [repeat constructor]; reflexivity|]).
  rewrite decide_False; [done|].
  intros Hin. repeat (apply elem_of_cons in Hin as [->|Hin]; [done|]).
  by apply elem_of_nil in Hin.
Qed.

(** A repository that is in no bucket leaves no trace in the section of
    projects: the section is the one of the repositories that are in a
    bucket. *)
Lemma filter_assigned_bucket category repos :
  filter (λ repo, assigned repo = Some category)
    (List.filter (λ repo, negb (get (repo_isFork repo) false))
       (filter (λ repo, is_Some (assigned repo)) repos))
  = filter (λ repo, assigned repo = Some category)
      (List.filter (λ repo, negb (get (repo_isFork repo) false)) repos).
Proof.
  induction repos as [|repo repos IH]; [done|].
  rewrite filter_cons. destruct (decide (is_Some (assigned repo))) as [Hsome|Hnone].
  - simpl. destruct (negb _); [|done]. rewrite !filter_cons, IH. done.
  - rewrite IH. simpl. destruct (negb _); [|done].
    rewrite filter_cons_False; [done|]. intros Hassigned. apply Hnone. by eexists.
Qed.

Lemma projects_section_unassigned repos :
  Forall named_if_listed repos →
  projects_section (filter (λ repo, is_Some (assigned repo)) repos)
  = projects_section repos.
Proof.
  intros Hnamed. rewrite Forall_forall in Hnamed.
  unfold projects_section, categorize_repositories.
  change empty_categories with (buckets_with (λ _, [])).
  rewrite !categorize_loop_assigned; cycle 1.
  - apply Forall_forall. intros repo. rewrite list_elem_of_In, filter_In, <- list_elem_of_In.
    intros [Hrepo _]. by apply Hnamed.
  - apply Forall_forall. intros repo. rewrite list_elem_of_In, filter_In, <- list_elem_of_In.
    intros [[_ Hrepo]%list_elem_of_filter _]. by apply Hnamed.
  - unfold buckets_with, extend. cbn [app]. by rewrite !filter_assigned_bucket.
Qed.

(** C7. When every listed repository has a name, categorization returns the
    five buckets, and a repository is in a bucket exactly when the rules,
    tried in their priority order, give that bucket first.  So a repository
    is in at most one bucket, and in none when no rule holds for it (or when
    it is private or a fork); the section of projects is then written as if
    the repository were not stored.  A repository [foo.jl] described as
    [a tutorial] is a Julia package. *)
Theorem categorize_repositories_first_match repos :
  Forall named_if_listed repos →
  ∃ categories,
    categorize_repositories repos = Ok categories
    ∧ categories.*1 = category_names
    ∧ (∀ category repo,
         repo ∈ bucket category categories ↔ repo ∈ repos ∧ assigned repo = Some category)
    ∧ (∀ repo first second,
         repo ∈ bucket first categories → repo ∈ bucket second categories →
         first = second)
    ∧ (∀ repo, assigned repo = None → ∀ category, repo ∉ bucket category categories)
    ∧ projects_section (filter (λ repo, is_Some (assigned repo)) repos)
      = projects_section repos
    ∧ spec_first_match "foo.jl" "a tutorial" = Some "Julia Packages".
Proof.
  intros Hnamed. exists (buckets_with (extend (λ _, []) repos)).
  assert (∀ category repo,
    repo ∈ bucket category (buckets_with (extend (λ _, []) repos))
    ↔ repo ∈ repos ∧ assigned repo = Some category) as Hin.
  { intros category repo. rewrite bucket_buckets_with. unfold extend. simpl.
    case_decide as Hlabel.
    - by rewrite list_elem_of_filter, (comm and).
    - split; [by intros ?%elem_of_nil|]. intros [_ Hassigned]. exfalso. apply Hlabel.
      unfold assigned in Hassigned. destruct (hidden repo); [done|].
      destruct (repo_name repo); [|done].
      apply first_match_label in Hassigned. unfold category_names.
      repeat (apply elem_of_cons in Hassigned as [->|Hassigned];
              [solve [repeat constructor]|]).
      by apply elem_of_nil in Hassigned. }
  split; [|split; [done|split; [done|split; [|split; [|split; [|done]]]]]].
  - unfold categorize_repositories.
    change empty_categories with (buckets_with (λ _, [])).
    by apply categorize_loop_assigned.
  - intros repo first second [_ H1]%Hin [_ H2]%Hin. congruence.
  - intros repo Hnone category [_ H]%Hin. congruence.
  - by apply projects_section_unassigned.
Qed.

Lemma categorize_repositories_first_match_witness :
  Forall named_if_listed
    [sample_repo "foo.jl" "a tutorial" 3; sample_repo "MyWebsite" "" 0;
     sample_repo "zotero-thing" "Research Tool" 5]
  ∧ ∃ categories,
      categorize_repositories
        [sample_repo "foo.jl" "a tutorial" 3; sample_repo "MyWebsite" "" 0;
         sample_repo "zotero-thing" "Research Tool" 5] = Ok categories
      ∧ categories.*1 = category_names.
Proof.
  assert (Forall named_if_listed
    [sample_repo "foo.jl" "a tutorial" 3; sample_repo "MyWebsite" "" 0;
     sample_repo "zotero-thing" "Research Tool" 5]) as Hnamed.
  { repeat constructor; intros _; eexists; reflexivity. }
  split; [exact Hnamed|].
  destruct (categorize_repositories_first_match _ Hnamed) as (categories & Hrun & Hkeys & _).
  exists categories. split; [exact Hrun | exact Hkeys].
Defined.

Lemma lower_any_keyword keywords name name' description description' :
  lower name = lower name' → lower description = lower description' →
  any_keyword keywords name description = any_keyword keywords name' description'.
Proof. unfold any_keyword. by intros -> ->. Qed.

(** C10. The rules for documentation, research and tools look at the name
    and the description in lower case only: two names and two descriptions
    that differ in the case of their letters pass the same keyword tests.
    The rule for personal projects looks at the name as it is written and not
    at the description.  So [MyWebsite] is in no bucket, whatever its
    description says about websites, while [mywebsite] is a personal project;
    [MyTOOL] is a tool and a repository described as [A GUIDE] is
    documentation. *)
Theorem categorize_case_sensitivity :
  (∀ keywords name name' description description',
      lower name = lower name' → lower description = lower description' →
      any_keyword keywords name description = any_keyword keywords name' description')
  ∧ (∀ categories repo name,
       hidden repo = false → repo_name repo = Some name → endswith ".jl" name = false →
       let description := get (repo_description repo) "" in
       categorize_step categories repo
       = Ok (if any_keyword ["tutorial"; "docs"; "documentation"; "guide"] name description
             then dict_append "Documentation & Tutorials" repo categories
             else if any_keyword ["research"; "paper"; "parametron"; "quantum";
                                  "oscillator"; "hopf"] name description
             then dict_append "Research Projects" repo categories
             else if any_keyword ["tool"; "utility"; "engine"; "zotero"; "homebrew"]
                       name description
             then dict_append "Tools & Utilities" repo categories
             else if contains "github.io" name || contains "website" name
                     || contains "hugo" name
             then dict_append "Personal Projects" repo categories
             else categories))
  ∧ categorize_repositories [sample_repo "MyWebsite" "" 0] = Ok empty_categories
  ∧ categorize_repositories [sample_repo "MyWebsite" "My website, built with hugo" 0]
    = Ok empty_categories
  ∧ categorize_repositories [sample_repo "mywebsite" "" 0]
    = Ok (dict_append "Personal Projects" (sample_repo "mywebsite" "" 0) empty_categories)
  ∧ categorize_repositories [sample_repo "MyTOOL" "" 0]
    = Ok (dict_append "Tools & Utilities" (sample_repo "MyTOOL" "" 0) empty_categories)
  ∧ categorize_repositories [sample_repo "notes" "A GUIDE" 0]
    = Ok (dict_append "Documentation & Tutorials" (sample_repo "notes" "A GUIDE" 0)
            empty_categories).
Proof.
  split; [apply @lower_any_keyword|].
  split; [|repeat split; by vm_compute].
  intros categories repo name Hshown Hname Hjl description.
  unfold categorize_step. fold (hidden repo). rewrite Hshown, Hname.
  cbn [index bind]. rewrite Hjl. fold description.
  repeat (match goal with
          | |- context [if ?test then _ else _] => destruct test
          end; [reflexivity|]).
  reflexivity.
Qed.

End categorize_facts.

Section pull_request_facts.
Import Py Report.

Implicit Types (prs all_prs : list pull_request) (pr : pull_request) (line : string).

Lemma created_lt_asym pr1 pr2 : created_lt pr1 pr2 = true → created_lt pr2 pr1 = false.
Proof. apply ltb_asym. Qed.

Lemma created_lt_negtrans pr1 pr2 pr3 :
  created_lt pr1 pr2 = false → created_lt pr2 pr3 = false → created_lt pr1 pr3 = false.
Proof. apply ltb_negtrans. Qed.

Lemma sort_created_descending prs : descending created_lt (sort_desc created_lt prs).
Proof.
  apply sort_desc_descending; [apply created_lt_asym | apply created_lt_negtrans].
Qed.

(** The pull requests of the report are the external, merged ones. *)
Lemma elem_of_external_closed_prs all_prs pr :
  pr ∈ external_closed_prs all_prs ↔ pr ∈ all_prs ∧ external pr ∧ merged pr.
Proof.
  unfold external_closed_prs, external, merged.
  rewrite sort_desc_elem_of, list_elem_of_In, filter_In, <- list_elem_of_In.
  rewrite andb_true_iff, negb_true_iff, bool_decide_eq_true. done.
Qed.

Lemma pr_line_dated pr :
  dated (pr_createdAt pr) →
  ∃ date,
    created_date (get (pr_createdAt pr) "") = Ok date
    ∧ pr_line pr
      = Ok ("- **[" +:+ nameWithOwner pr "Unknown" +:+ "](" +:+ get (pr_url pr) "#"
              +:+ ")** - " +:+ get (pr_title pr) "No title"
              +:+ " *(merged " +:+ date +:+ ")*").
Proof. intros [date Hdate]. exists date. unfold pr_line. by rewrite Hdate. Qed.

Lemma pr_line_is_entry pr line : pr_line pr = Ok line → is_entry line = true.
Proof.
  unfold pr_line. intros (date & _ & [= <-])%bind_Ok. apply prefix_empty.
Qed.

Lemma for_each_pr_line_total prs :
  Forall (λ pr, dated (pr_createdAt pr)) prs →
  ∃ lines, for_each pr_line prs = Ok lines ∧ length lines = length prs.
Proof.
  intros Hdated. apply for_each_total.
  eapply Forall_impl; [exact Hdated|]. intros pr (date & _ & Hline)%pr_line_dated. eauto.
Qed.

(** The loop that splits the pull requests of an organization. *)
Lemma split_loop flagship prs counts flagship_prs other_prs :
  foldl (split_step flagship) (counts, flagship_prs, other_prs) prs
  = (foldl (λ counts pr, dict_incr (short_name pr) counts) counts prs,
     flagship_prs ++ filter (targets flagship) prs,
     other_prs ++ filter (λ pr, ¬ targets flagship pr) prs).
Proof.
  revert counts flagship_prs other_prs.
  induction prs as [|pr prs IH]; intros counts flagship_prs other_prs; simpl.
  - by rewrite !filter_nil, !app_nil_r.
  - unfold targets in *. rewrite !filter_cons.
    destruct (String.eqb_spec (short_name pr) flagship) as [Heq|Hne].
    + rewrite IH, decide_True, decide_False by auto. by rewrite <- app_assoc.
    + rewrite IH, decide_False, decide_True by auto. by rewrite <- app_assoc.
Qed.

Lemma Forall_dated_sub prs sub :
  Forall (λ pr, dated (pr_createdAt pr)) prs →
  (∀ pr, pr ∈ sub → pr ∈ prs) →
  Forall (λ pr, dated (pr_createdAt pr)) sub.
Proof. rewrite !Forall_forall. eauto. Qed.

Lemma elem_of_take_sort_filter (P : pull_request → Prop) `{!∀ pr, Decision (P pr)}
    n prs pr :
  pr ∈ take n (sort_desc created_lt (filter P prs)) → pr ∈ prs ∧ P pr.
Proof.
  intros Hin%subseteq_take. apply sort_desc_elem_of in Hin.
  apply list_elem_of_filter in Hin as [? ?]. done.
Qed.

Lemma elem_of_sort_filter (P : pull_request → Prop) `{!∀ pr, Decision (P pr)} prs pr :
  pr ∈ sort_desc created_lt (filter P prs) → pr ∈ prs ∧ P pr.
Proof.
  intros Hin. apply sort_desc_elem_of in Hin.
  apply list_elem_of_filter in Hin as [? ?]. done.
Qed.

(** The branch of an organization with a flagship repository that has pull
    requests to the flagship. *)
Lemma flagship_branch_block org flagship role prs :
  filter (targets flagship) prs ≠ [] →
  Forall (λ pr, dated (pr_createdAt pr)) prs →
  let flagship_prs := filter (targets flagship) prs in
  let other_prs := filter (λ pr, ¬ targets flagship pr) prs in
  ∃ recent others,
    flagship_branch org flagship role prs
    = Ok (["**" +:+ flagship +:+ "** (" +:+ str_nat (length flagship_prs) +:+ " PRs) - *"
             +:+ role +:+ "*";
           "";
           "*Recent " +:+ flagship +:+ " contributions (last 3):*"]
          ++ recent ++ [""]
          ++ match other_prs with
             | [] => []
             | _ => ["**Other " +:+ org +:+ " contributions:**"; ""] ++ others
             end)
    ∧ Forall2 (λ pr line, pr_line pr = Ok line)
        (take 3 (sort_desc created_lt flagship_prs)) recent
    ∧ Forall2 (λ pr line, pr_line pr = Ok line) (sort_desc created_lt other_prs) others.
Proof.
  intros Hflagship Hdated flagship_prs other_prs.
  destruct (for_each_pr_line_total (take 3 (sort_desc created_lt flagship_prs)))
    as (recent & Hrecent & _).
  { eapply Forall_dated_sub; [exact Hdated|]. by intros pr [? _]%elem_of_take_sort_filter. }
  destruct (for_each_pr_line_total (sort_desc created_lt other_prs))
    as (others & Hothers & _).
  { eapply Forall_dated_sub; [exact Hdated|]. by intros pr [? _]%elem_of_sort_filter. }
  exists recent, others. split; [|split; by apply for_each_Ok].
  unfold flagship_branch. rewrite split_loop. cbn [app].
  fold flagship_prs other_prs. fold flagship_prs in Hflagship.
  destruct flagship_prs as [|pr0 flagship_prs'] eqn:Hfl; [done|].
  rewrite Hrecent. cbn [bind].
  destruct other_prs as [|pr1 other_prs'] eqn:Hot.
  - cbn [bind app]. by rewrite ?app_nil_r, <- ?app_assoc.
  - rewrite Hothers. cbn [bind app]. by rewrite <- ?app_assoc.
Qed.

(** C1, as amended.  For JuliaDynamics and qojulia, when the organization has
    pull requests to its flagship repository and every timestamp can be
    printed, the block of the organization is: its heading with the number
    of its pull requests; the name of the flagship with the number of pull
    requests to it; the three most recent pull requests to the flagship, one
    line each; then, when there are pull requests to other repositories, a
    heading and all of them, one line each, most recent first.  No list of
    repositories with their counts is printed. *)
Theorem flagship_organization_block org flagship role prs :
  (org, flagship, role) ∈ flagship_organizations →
  filter (targets flagship) prs ≠ [] →
  Forall (λ pr, dated (pr_createdAt pr)) prs →
  let flagship_prs := sort_desc created_lt (filter (targets flagship) prs) in
  let other_prs := sort_desc created_lt (filter (λ pr, ¬ targets flagship pr) prs) in
  ∃ recent others,
    org_block (org, prs)
    = Ok (["### " +:+ org +:+ " (" +:+ str_nat (length prs) +:+ " PRs)"; "";
           "**" +:+ flagship +:+ "** (" +:+ str_nat (length flagship_prs) +:+ " PRs) - *"
             +:+ role +:+ "*";
           "";
           "*Recent " +:+ flagship +:+ " contributions (last 3):*"]
          ++ recent ++ [""]
          ++ match other_prs with
             | [] => []
             | _ => ["**Other " +:+ org +:+ " contributions:**"; ""] ++ others
             end
          ++ [""])
    ∧ Forall2 (λ pr line, pr_line pr = Ok line) (take 3 flagship_prs) recent
    ∧ Forall2 (λ pr line, pr_line pr = Ok line) other_prs others
    ∧ descending created_lt flagship_prs
    ∧ flagship_prs ≡ₚ filter (targets flagship) prs
    ∧ descending created_lt other_prs
    ∧ other_prs ≡ₚ filter (λ pr, ¬ targets flagship pr) prs.
Proof.
  intros Horg Hflagship Hdated flagship_prs other_prs.
  destruct (flagship_branch_block org flagship role prs Hflagship Hdated)
    as (recent & others & Hbranch & Hrecent & Hothers).
  exists recent, others.
  split; [|repeat split; try done;
            first [apply sort_created_descending | apply sort_desc_perm]].
  assert (org_block (org, prs)
          = let* body := flagship_branch org flagship role prs in
            Ok (["### " +:+ org +:+ " (" +:+ str_nat (length prs) +:+ " PRs)"; ""]
                ++ body ++ [""])) as ->.
  { unfold flagship_organizations in Horg.
    apply elem_of_cons in Horg as [[= -> -> ->]|Horg]; [reflexivity|].
    apply list_elem_of_singleton in Horg as [= -> -> ->]. reflexivity. }
  rewrite Hbranch. cbn [bind]. f_equal. unfold flagship_prs.
  rewrite sort_desc_length. cbn [app]. do 5 f_equal. rewrite <- !app_assoc.
  do 2 f_equal. unfold other_prs.
  destruct (filter (λ pr, ¬ targets flagship pr) prs) as [|pr1 rest] eqn:Hot; [done|].
  destruct (sort_desc created_lt (pr1 :: rest)) as [|pr2 sorted] eqn:Hsorted; [|done].
  apply (f_equal length) in Hsorted. by rewrite sort_desc_length in Hsorted.
Qed.

Lemma flagship_organization_block_witness :
  ("JuliaDynamics", "CriticalTransitions.jl", "Co-creator and main contributor")
    ∈ flagship_organizations
  ∧ filter (targets "CriticalTransitions.jl") flagship_sample ≠ []
  ∧ Forall (λ pr, dated (pr_createdAt pr)) flagship_sample
  ∧ ∃ recent others,
      org_block ("JuliaDynamics", flagship_sample)
      = Ok (["### JuliaDynamics (9 PRs)"; "";
             "**CriticalTransitions.jl** (7 PRs) - *Co-creator and main contributor*";
             "";
             "*Recent CriticalTransitions.jl contributions (last 3):*"]
            ++ recent ++ [""]
            ++ (["**Other JuliaDynamics contributions:**"; ""] ++ others)
            ++ [""])
      ∧ length recent = 3%nat ∧ length others = 2%nat.
Proof.
  assert (("JuliaDynamics", "CriticalTransitions.jl", "Co-creator and main contributor")
            ∈ flagship_organizations) as Horg by left.
  assert (filter (targets "CriticalTransitions.jl") flagship_sample ≠ []) as Hflagship
    by (by vm_compute).
  assert (Forall (λ pr, dated (pr_createdAt pr)) flagship_sample) as Hdated
    by (repeat constructor; eexists; vm_compute; reflexivity).
  split; [exact Horg|]. split; [exact Hflagship|]. split; [exact Hdated|].
  destruct (flagship_organization_block _ _ _ _ Horg Hflagship Hdated)
    as (recent & others & Hblock & Hrecent & Hothers & _).
  exists recent, others. split; [exact Hblock|].
  apply Forall2_length in Hrecent, Hothers. split; [by rewrite <- Hrecent|].
  by rewrite <- Hothers.
Defined.

(** C1, as stated, fails: of the seven pull requests to the flagship of
    JuliaDynamics, the block lists three, not five. *)
Lemma flagship_block_lists_three_not_five :
  ∃ block,
    org_block ("JuliaDynamics", flagship_sample) = Ok block
    ∧ lists_most_recent 3 "CriticalTransitions.jl" flagship_sample block
    ∧ ¬ lists_most_recent 5 "CriticalTransitions.jl" flagship_sample block.
Proof.
  eexists. split; [vm_compute; reflexivity|]. split.
  - intros pr Hpr. vm_compute in Hpr.
    repeat (apply elem_of_cons in Hpr as [->|Hpr];
            [eexists; split; [vm_compute; reflexivity|]; solve [repeat constructor]|]).
    by apply elem_of_nil in Hpr.
  - intros Hfive. destruct (Hfive (flagship_pr "4")) as (line & Hline & Hin).
    { vm_compute. do 3 right. left. }
    vm_compute in Hline. injection Hline as <-.
    pose proof (bool_decide_pack _ Hin) as Hdec. vm_compute in Hdec. done.
Qed.

(** *** Where the entries of the document come from *)

Lemma entries_from_app prs lines1 lines2 :
  entries_from prs lines1 → entries_from prs lines2 → entries_from prs (lines1 ++ lines2).
Proof. intros H1 H2 line [?|?]%elem_of_app; eauto. Qed.

Lemma entries_from_plain prs lines :
  Forall (λ line, is_entry line = false) lines → entries_from prs lines.
Proof.
  intros Hplain line Hin Hentry. rewrite Forall_forall in Hplain.
  rewrite (Hplain _ Hin) in Hentry. done.
Qed.

Lemma entries_from_mono prs prs' lines :
  (∀ pr, pr ∈ prs → pr ∈ prs') → entries_from prs lines → entries_from prs' lines.
Proof.
  intros Hsub Hfrom line Hin Hentry. destruct (Hfrom line Hin Hentry) as (pr & ? & ?).
  eauto.
Qed.

Lemma entries_from_for_each prs sub lines :
  for_each pr_line sub = Ok lines → (∀ pr, pr ∈ sub → pr ∈ prs) → entries_from prs lines.
Proof.
  intros Hlines Hsub line Hin _.
  destruct (for_each_elem_of _ _ _ _ Hlines Hin) as (pr & ? & ?). eauto.
Qed.

Lemma entries_from_cons prs line lines :
  is_entry line = false → entries_from prs lines → entries_from prs (line :: lines).
Proof.
  intros Hplain Hfrom line' [->|Hin]%elem_of_cons Hentry; [congruence | eauto].
Qed.

Lemma entries_from_nil prs : entries_from prs [].
Proof. by intros line ?%elem_of_nil. Qed.

Lemma count_line_plain (n : nat) (rest : string) :
  is_entry ("- **" +:+ str_nat n +:+ rest) = false.
Proof.
  destruct (str_nat_head n) as (c & digits & -> & Hc & _).
  unfold is_entry, startswith.
  change (String.prefix "- **[" ("- **" +:+ String c digits +:+ rest))
    with (if ascii_dec "[" c then String.prefix "" (digits +:+ rest) else false).
  by destruct (ascii_dec "[" c) as [<-|].
Qed.

(** Peels the lines that are not entries off the front of a block. *)
Ltac plain_lines :=
  cbn [app];
  repeat (apply entries_from_cons; [first [reflexivity | apply count_line_plain]|]);
  try apply entries_from_nil.

Lemma quantum_engineered_branch_entries prs lines :
  quantum_engineered_branch prs = Ok lines → entries_from prs lines.
Proof.
  unfold quantum_engineered_branch. intros (recent & Hrecent & [= <-])%bind_Ok.
  plain_lines. apply entries_from_app.
  - apply entries_from_plain, Forall_forall. by intros line (item & -> & _)%list_elem_of_fmap.
  - plain_lines. eapply entries_from_for_each; [done|]. intros pr Hpr%subseteq_take.
    by apply sort_desc_elem_of in Hpr.
Qed.

Lemma flagship_branch_entries org flagship role prs lines :
  flagship_branch org flagship role prs = Ok lines → entries_from prs lines.
Proof.
  unfold flagship_branch. rewrite split_loop. cbn [app].
  intros (summary & Hsummary & (others & Hothers & [= <-])%bind_Ok)%bind_Ok.
  apply entries_from_app.
  - destruct (filter (targets flagship) prs) as [|pr0 rest] eqn:Hfl.
    { injection Hsummary as <-. apply entries_from_nil. }
    apply bind_Ok in Hsummary as (recent & Hrecent & [= <-]).
    plain_lines. apply entries_from_app; [|plain_lines].
    eapply entries_from_for_each; [done|]. rewrite <- Hfl.
    by intros pr [? _]%elem_of_take_sort_filter.
  - destruct (filter (λ pr, ¬ targets flagship pr) prs) as [|pr0 rest] eqn:Hot.
    { injection Hothers as <-. apply entries_from_nil. }
    apply bind_Ok in Hothers as (entries & Hentries & [= <-]).
    plain_lines. eapply entries_from_for_each; [done|]. rewrite <- Hot.
    by intros pr [? _]%elem_of_sort_filter.
Qed.

Lemma org_block_entries org prs lines :
  org_block (org, prs) = Ok lines → entries_from prs lines.
Proof.
  unfold org_block. intros (body & Hbody & [= <-])%bind_Ok.
  plain_lines. apply entries_from_app; [|plain_lines].
  destruct (String.eqb org "QuantumEngineeredSystems");
    [by eapply quantum_engineered_branch_entries|].
  destruct (String.eqb org "JuliaDynamics"); [by eapply flagship_branch_entries|].
  destruct (String.eqb org "qojulia"); [by eapply flagship_branch_entries|].
  eapply entries_from_for_each; [done|]. intros pr. by rewrite sort_desc_elem_of.
Qed.

(** A pull request filed under an organization is one of the grouped list. *)
Lemma dict_append_elem_of {A} (key : string) (x : A) (d : list (string * list A))
    (k : string) (xs : list A) (y : A) :
  (k, xs) ∈ dict_append key x d → y ∈ xs →
  y = x ∨ ∃ xs', (k, xs') ∈ d ∧ y ∈ xs'.
Proof.
  induction d as [|[k' xs'] d IH]; simpl.
  - intros Hin%list_elem_of_singleton Hy. injection Hin as -> ->.
    apply list_elem_of_singleton in Hy. by left.
  - destruct (String.eqb k' key).
    + intros [Heq|Hin]%elem_of_cons Hy.
      * injection Heq as -> ->. apply elem_of_app in Hy as [Hy|Hy].
        -- right. exists xs'. split; [left | done].
        -- apply list_elem_of_singleton in Hy. by left.
      * right. exists xs. split; [by right | done].
    + intros [Heq|Hin]%elem_of_cons Hy.
      * injection Heq as -> ->. right. exists xs'. split; [left | done].
      * destruct (IH Hin Hy) as [->|(xs'' & ? & ?)]; [by left|].
        right. exists xs''. split; [by right | done].
Qed.

Lemma group_by_org_elem_of prs org group pr :
  (org, group) ∈ group_by_org prs → pr ∈ group → pr ∈ prs.
Proof.
  unfold group_by_org.
  assert (∀ acc, (org, group) ∈ foldl group_step acc prs → pr ∈ group →
                 pr ∈ prs ∨ ∃ group', (org, group') ∈ acc ∧ pr ∈ group') as Hloop.
  { induction prs as [|pr' prs IH]; intros acc Hin Hpr; simpl in *.
    - right. eauto.
    - destruct (IH _ Hin Hpr) as [?|(group' & Hin' & Hpr')]; [left; by right|].
      unfold group_step in Hin'.
      destruct (negb _); [|right; eauto].
      destruct (dict_append_elem_of _ _ _ _ _ _ Hin' Hpr') as [->|(? & ? & ?)].
      + left. left.
      + right. eauto. }
  intros Hin Hpr. destruct (Hloop [] Hin Hpr) as [?|(? & []%elem_of_nil & _)]. done.
Qed.

Lemma recent_section_entries all_prs lines :
  recent_section all_prs = Ok lines → entries_from (external_closed_prs all_prs) lines.
Proof.
  unfold recent_section. intros (entries & Hentries & [= <-])%bind_Ok.
  plain_lines. apply entries_from_app; [|plain_lines].
  eapply entries_from_for_each; [done|]. by intros pr ?%subseteq_take.
Qed.

Lemma organizations_section_entries all_prs lines :
  organizations_section all_prs = Ok lines →
  entries_from (external_closed_prs all_prs) lines.
Proof.
  unfold organizations_section. intros (blocks & Hblocks & [= <-])%bind_Ok.
  plain_lines. intros line Hline Hentry.
  destruct (for_each_extend_elem_of _ _ _ _ Hblocks Hline)
    as ([org prs] & block & Hitem & Hblock & Hin).
  destruct (org_block_entries _ _ _ Hblock line Hin Hentry) as (pr & Hpr & Hrender).
  exists pr. split; [|done].
  apply sort_desc_elem_of in Hitem. by eapply group_by_org_elem_of.
Qed.

(** The entry of a pull request to a repository that is not the user's does
    not name a repository of the user. *)
Lemma external_line_not_own pr line :
  external pr → pr_line pr = Ok line → startswith "- **[oameye/" line = false.
Proof.
  unfold external, pr_line, startswith.
  intros Hexternal (date & _ & [= <-])%bind_Ok.
  destruct (String.prefix "- **[oameye/" _) eqn:Hprefix; [exfalso | done].
  change (String.prefix "oameye/"
            (nameWithOwner pr "Unknown"
             +:+ String "]" ("(" +:+ get (pr_url pr) "#" +:+ ")** - "
                             +:+ get (pr_title pr) "No title"
                             +:+ " *(merged " +:+ date +:+ ")*")) = true) in Hprefix.
  apply prefix_app_absent in Hprefix; [|by repeat constructor].
  unfold nameWithOwner in *. destruct (ref_nameWithOwner (get_repository pr)); simpl in *.
  - congruence.
  - done.
Qed.

(** C6. In a document that [generate_markdown] produces, every entry of the
    section of recent contributions and of the section of contributions by
    organization is the line of a stored pull request that is merged and
    whose repository is not under [oameye/]; no line of these sections is an
    entry for a repository under [oameye/]; the header and the footer hold no
    entry.  (The section of projects lists repositories only.) *)
Theorem own_and_unmerged_not_rendered today all_prs repos doc :
  markdown_lines today all_prs repos = Ok doc →
  ∃ recent projects organizations,
    doc = header today ++ recent ++ projects ++ organizations ++ footer
    ∧ recent_section all_prs = Ok recent
    ∧ projects_section repos = Ok projects
    ∧ organizations_section all_prs = Ok organizations
    ∧ (∀ line, line ∈ recent ++ organizations → is_entry line = true →
         ∃ pr, pr ∈ all_prs ∧ external pr ∧ merged pr ∧ pr_line pr = Ok line)
    ∧ (∀ line, line ∈ recent ++ organizations → startswith "- **[oameye/" line = false)
    ∧ (∀ line, line ∈ header today ++ footer → is_entry line = false).
Proof.
  unfold markdown_lines.
  intros (recent & Hrecent & (projects & Hprojects
            & (organizations & Horganizations & [= <-])%bind_Ok)%bind_Ok)%bind_Ok.
  exists recent, projects, organizations.
  assert (∀ line, line ∈ recent ++ organizations → is_entry line = true →
    ∃ pr, pr ∈ all_prs ∧ external pr ∧ merged pr ∧ pr_line pr = Ok line) as Hentries.
  { intros line Hline Hentry.
    assert (entries_from (external_closed_prs all_prs) (recent ++ organizations)) as Hfrom
      by (apply entries_from_app;
          [by apply recent_section_entries | by apply organizations_section_entries]).
    destruct (Hfrom line Hline Hentry) as (pr & Hpr & Hrender).
    apply elem_of_external_closed_prs in Hpr as (? & ? & ?). eauto 6. }
  repeat split; try done.
  - intros line Hline.
    destruct (startswith "- **[oameye/" line) eqn:Hown; [exfalso | done].
    destruct (Hentries line Hline) as (pr & _ & Hexternal & _ & Hrender).
    { unfold startswith in Hown. by apply (prefix_app_l "- **[" "oameye/") in Hown. }
    pose proof (external_line_not_own _ _ Hexternal Hrender). congruence.
  - intros line Hline. unfold header, footer in Hline. cbn [app] in Hline.
    repeat (apply elem_of_cons in Hline as [->|Hline]; [reflexivity|]).
    by apply elem_of_nil in Hline.
Qed.

Lemma own_and_unmerged_not_rendered_witness :
  ∃ doc,
    markdown_lines "March 05, 2024" (own_pr :: open_pr :: flagship_sample) [] = Ok doc
    ∧ ∃ recent projects organizations,
        doc = header "March 05, 2024" ++ recent ++ projects ++ organizations ++ footer
        ∧ ∀ line, line ∈ recent ++ organizations →
                  startswith "- **[oameye/" line = false.
Proof.
  assert (∃ doc, markdown_lines "March 05, 2024" (own_pr :: open_pr :: flagship_sample) []
                 = Ok doc) as [doc Hdoc] by (eexists; vm_compute; reflexivity).
  exists doc. split; [exact Hdoc|].
  destruct (own_and_unmerged_not_rendered _ _ _ _ Hdoc)
    as (recent & projects & organizations & Hsplit & _ & _ & _ & _ & Hown & _).
  exists recent, projects, organizations. split; [exact Hsplit | exact Hown].
Defined.

End pull_request_facts.

(** *** Rendering records with missing keys *)

Section rendering_facts.
Import Py Report.

Implicit Types (prs all_prs : list pull_request) (pr : pull_request).
Implicit Types (repos : list repository) (repo : repository).

Lemma for_each_extend_total {A B} (f : A → result (list B)) (xs : list A) :
  Forall (λ x, ∃ block, f x = Ok block) xs → ∃ ys, for_each_extend f xs = Ok ys.
Proof.
  intros (blocks & Hblocks & _)%for_each_total. exists (mjoin blocks).
  unfold for_each_extend. by rewrite Hblocks.
Qed.

Lemma for_each_extend_block {A B} (f : A → result (list B)) (xs : list A) (ys : list B)
    (x : A) (block : list B) (y : B) :
  for_each_extend f xs = Ok ys → x ∈ xs → f x = Ok block → y ∈ block → y ∈ ys.
Proof.
  unfold for_each_extend. intros (blocks & Hblocks%for_each_Ok & [= <-])%bind_Ok Hx Hfx Hy.
  apply list_elem_of_join. exists block. split; [done|].
  induction Hblocks as [|x' block' xs blocks Hfx' _ IH]; [by apply elem_of_nil in Hx|].
  apply elem_of_cons in Hx as [->|Hx].
  - rewrite Hfx in Hfx'. injection Hfx' as <-. left.
  - right. by apply IH.
Qed.

Lemma quantum_engineered_branch_total prs :
  Forall (λ pr, dated (pr_createdAt pr)) prs →
  ∃ lines, quantum_engineered_branch prs = Ok lines.
Proof.
  intros Hdated. unfold quantum_engineered_branch.
  destruct (for_each_pr_line_total (take 5 (sort_desc created_lt prs)))
    as (recent & -> & _); [|by eexists].
  eapply Forall_dated_sub; [exact Hdated|]. intros pr Hpr%subseteq_take.
  by apply sort_desc_elem_of in Hpr.
Qed.

Lemma flagship_branch_total org flagship role prs :
  Forall (λ pr, dated (pr_createdAt pr)) prs →
  ∃ lines, flagship_branch org flagship role prs = Ok lines.
Proof.
  intros Hdated. unfold flagship_branch. rewrite split_loop. cbn [app].
  destruct (for_each_pr_line_total
              (take 3 (sort_desc created_lt (filter (targets flagship) prs))))
    as (recent & Hrecent & _).
  { eapply Forall_dated_sub; [exact Hdated|]. by intros pr [? _]%elem_of_take_sort_filter. }
  destruct (for_each_pr_line_total
              (sort_desc created_lt (filter (λ pr, ¬ targets flagship pr) prs)))
    as (others & Hothers & _).
  { eapply Forall_dated_sub; [exact Hdated|]. by intros pr [? _]%elem_of_sort_filter. }
  destruct (filter (targets flagship) prs), (filter (λ pr, ¬ targets flagship pr) prs);
    rewrite ?Hrecent, ?Hothers; by eexists.
Qed.

Lemma org_block_total org prs :
  Forall (λ pr, dated (pr_createdAt pr)) prs → ∃ lines, org_block (org, prs) = Ok lines.
Proof.
  intros Hdated. unfold org_block.
  assert (∃ body,
    (if String.eqb org "QuantumEngineeredSystems" then quantum_engineered_branch prs
     else if String.eqb org "JuliaDynamics" then
       flagship_branch "JuliaDynamics" "CriticalTransitions.jl"
         "Co-creator and main contributor" prs
     else if String.eqb org "qojulia" then
       flagship_branch "qojulia" "SecondQuantizedAlgebra.jl"
         "Major contributor and maintainer" prs
     else for_each pr_line (sort_desc created_lt prs)) = Ok body) as [body ->];
    [|by eexists].
  destruct (String.eqb org "QuantumEngineeredSystems");
    [by apply quantum_engineered_branch_total|].
  destruct (String.eqb org "JuliaDynamics"); [by apply flagship_branch_total|].
  destruct (String.eqb org "qojulia"); [by apply flagship_branch_total|].
  destruct (for_each_pr_line_total (sort_desc created_lt prs)) as (lines & -> & _);
    [|by eexists].
  eapply Forall_dated_sub; [exact Hdated|]. intros pr. by rewrite sort_desc_elem_of.
Qed.

Lemma organizations_section_total all_prs :
  Forall (λ pr, dated (pr_createdAt pr)) (external_closed_prs all_prs) →
  ∃ lines, organizations_section all_prs = Ok lines.
Proof.
  intros Hdated. unfold organizations_section.
  destruct (for_each_extend_total org_block
              (sort_desc len_lt (group_by_org (external_closed_prs all_prs))))
    as (blocks & ->); [|by eexists].
  apply Forall_forall. intros [org prs] Hitem%sort_desc_elem_of.
  apply org_block_total. eapply Forall_dated_sub; [exact Hdated|].
  intros pr Hpr. by eapply group_by_org_elem_of.
Qed.

(** The block of a repository that has a name, a URL and a printable
    timestamp. *)
Lemma repo_block_complete repo name url date :
  repo_name repo = Some name → repo_url repo = Some url →
  created_date (get (repo_createdAt repo) "") = Ok date →
  let description := get (repo_description repo) "No description" in
  let stars := get (repo_stargazerCount repo) 0%Z in
  repo_block repo
  = Ok (["- **[" +:+ name +:+ "](" +:+ url +:+ ")** "
           +:+ (if (0 <? stars)%Z then "⭐ " +:+ str_int stars else "")]
        ++ (if negb (String.eqb description "") then ["  - " +:+ description] else [])
        ++ ["  - *Created: " +:+ date +:+ "*"; ""; "#"; ""]).
Proof. intros Hname Hurl Hdate. unfold repo_block. by rewrite Hname, Hurl, Hdate. Qed.

Lemma category_block_total category bucket :
  Forall (λ repo, ∃ block, repo_block repo = Ok block) bucket →
  ∃ lines,
    category_block (category, bucket) = Ok lines
    ∧ ∀ repo block line,
        repo ∈ bucket → repo_block repo = Ok block → line ∈ block → line ∈ lines.
Proof.
  intros Hbucket. unfold category_block.
  destruct bucket as [|repo0 bucket'] eqn:Hb.
  { exists []. split; [done|]. by intros ??? ?%elem_of_nil. }
  rewrite <- Hb in *. clear Hb.
  destruct (for_each_extend_total repo_block (sort_desc stars_created_lt bucket))
    as (blocks & Hblocks).
  { apply Forall_forall. intros repo Hrepo%sort_desc_elem_of.
    rewrite Forall_forall in Hbucket. eauto. }
  rewrite Hblocks. eexists. split; [reflexivity|].
  intros repo block line Hrepo Hblock Hline. cbn [bind app]. do 2 right.
  eapply for_each_extend_block; [exact Hblocks| |exact Hblock|exact Hline].
  by apply sort_desc_elem_of.
Qed.

Lemma assigned_listed repo category :
  assigned repo = Some category →
  hidden repo = false ∧ category ∈ category_names.
Proof.
  unfold assigned. destruct (hidden repo); [done|]. destruct (repo_name repo); [|done].
  intros Hlabel%first_match_label. split; [done|]. unfold category_names.
  repeat (apply elem_of_cons in Hlabel as [->|Hlabel]; [solve [repeat constructor]|]).
  by apply elem_of_nil in Hlabel.
Qed.

Lemma renderable_block repo :
  renderable repo → is_Some (assigned repo) → ∃ block, repo_block repo = Ok block.
Proof.
  intros Hrenderable [category Hassigned].
  destruct (assigned_listed _ _ Hassigned) as [Hshown _].
  destruct (Hrenderable Hshown) as ([name Hname] & Hrest).
  destruct Hrest as ([url Hurl] & [date Hdate]); [by eexists|].
  rewrite (repo_block_complete _ _ _ _ Hname Hurl Hdate). by eexists.
Qed.

Lemma projects_section_total repos :
  Forall renderable repos →
  ∃ lines,
    projects_section repos = Ok lines
    ∧ ∀ repo block line,
        repo ∈ repos → is_Some (assigned repo) → repo_block repo = Ok block →
        line ∈ block → line ∈ lines.
Proof.
  intros Hrenderable. unfold projects_section.
  set (shown := List.filter (λ repo, negb (get (repo_isFork repo) false)) repos).
  assert (∀ repo, repo ∈ shown → repo ∈ repos) as Hshown.
  { intros repo. unfold shown. rewrite !list_elem_of_In, filter_In. tauto. }
  rewrite Forall_forall in Hrenderable.
  unfold categorize_repositories. change empty_categories with (buckets_with (λ _, [])).
  rewrite categorize_loop_assigned; cycle 1.
  { apply Forall_forall. intros repo Hrepo Hlisted.
    by destruct (Hrenderable repo (Hshown _ Hrepo) Hlisted). }
  cbn [bind]. set (content := extend (λ _, []) shown).
  assert (∀ category, ∃ lines,
    category_block (category, content category) = Ok lines
    ∧ ∀ repo block line,
        repo ∈ content category → repo_block repo = Ok block → line ∈ block →
        line ∈ lines) as Hcategory.
  { intros category. apply category_block_total, Forall_forall.
    intros repo [Hassigned Hrepo]%list_elem_of_filter.
    apply renderable_block; [by apply Hrenderable, Hshown | by eexists]. }
  destruct (for_each_extend_total category_block (buckets_with content))
    as (blocks & Hblocks).
  { unfold buckets_with. repeat constructor;
      match goal with
      | |- ∃ _, category_block (?category, _) = _ =>
          destruct (Hcategory category) as (lines & ? & _); by exists lines
      end. }
  rewrite Hblocks. eexists. split; [reflexivity|].
  intros repo block line Hrepo [category Hassigned] Hblock Hline. cbn [bind app].
  do 2 right.
  destruct (assigned_listed _ _ Hassigned) as [Hlisted Hlabel].
  destruct (Hcategory category) as (lines & Hlines & Hin).
  eapply for_each_extend_block; [exact Hblocks| |exact Hlines|].
  - unfold buckets_with, category_names in *.
    repeat (apply elem_of_cons in Hlabel as [->|Hlabel]; [solve [repeat constructor]|]).
    by apply elem_of_nil in Hlabel.
  - eapply Hin; [|exact Hblock|exact Hline].
    unfold content, extend. cbn [app]. apply list_elem_of_filter. split; [done|].
    unfold shown. rewrite list_elem_of_In, filter_In, <- list_elem_of_In. split; [done|].
    unfold hidden in Hlisted. apply orb_false_elim in Hlisted as [_ ->]. done.
Qed.

(** C3, as amended.  When every external, merged pull request has a
    printable creation timestamp, and every listed repository has a name and,
    if it is in a bucket, a URL and a printable creation timestamp, the
    document is produced whatever titles, pull-request URLs and descriptions
    are missing.  Each of the ten pull requests of the recent section has its
    line in the document, with [No title] for a missing title and [#] for a
    missing URL; each repository of a bucket has its block in the document,
    with the line [No description] when it has no description. *)
Theorem rendering_with_fallbacks today all_prs repos :
  (∀ pr, pr ∈ all_prs → external pr → merged pr → dated (pr_createdAt pr)) →
  Forall renderable repos →
  ∃ doc,
    markdown_lines today all_prs repos = Ok doc
    ∧ (∀ pr, pr ∈ take 10 (external_closed_prs all_prs) →
         ∃ date,
           created_date (get (pr_createdAt pr) "") = Ok date
           ∧ ("- **[" +:+ nameWithOwner pr "Unknown" +:+ "](" +:+ get (pr_url pr) "#"
                +:+ ")** - " +:+ get (pr_title pr) "No title"
                +:+ " *(merged " +:+ date +:+ ")*") ∈ doc)
    ∧ (∀ repo, repo ∈ repos → is_Some (assigned repo) →
         ∃ block,
           repo_block repo = Ok block
           ∧ (∀ line, line ∈ block → line ∈ doc)
           ∧ (repo_description repo = None → "  - No description" ∈ block)).
Proof.
  intros Hprs Hrepos.
  assert (Forall (λ pr, dated (pr_createdAt pr)) (external_closed_prs all_prs)) as Hdated.
  { apply Forall_forall. intros pr (? & ? & ?)%elem_of_external_closed_prs. eauto. }
  destruct (for_each_pr_line_total (take 10 (external_closed_prs all_prs)))
    as (entries & Hentries & _).
  { eapply Forall_dated_sub; [exact Hdated|]. by intros pr ?%subseteq_take. }
  destruct (projects_section_total repos Hrepos) as (projects & Hprojects & Hblocks).
  destruct (organizations_section_total all_prs Hdated) as (organizations & Horganizations).
  unfold markdown_lines, recent_section.
  rewrite Hentries, Hprojects, Horganizations. cbn [bind].
  eexists. split; [reflexivity|]. split.
  - intros pr Hpr.
    assert (dated (pr_createdAt pr)) as (date & Hdate & Hline)%pr_line_dated.
    { rewrite Forall_forall in Hdated. by apply Hdated, (subseteq_take 10). }
    exists date. split; [done|].
    apply elem_of_app. right. apply elem_of_app. left. do 2 right.
    apply elem_of_app. left.
    apply for_each_Ok in Hentries.
    apply list_elem_of_lookup in Hpr as [i Hi].
    destruct (Forall2_lookup_l _ _ _ _ _ Hentries Hi) as (line & Hlookup & Hrender).
    rewrite Hline in Hrender. injection Hrender as ->.
    by eapply list_elem_of_lookup_2.
  - intros repo Hrepo Hassigned.
    rewrite Forall_forall in Hrepos.
    destruct (renderable_block repo (Hrepos _ Hrepo) Hassigned) as [block Hblock].
    exists block. split; [done|]. split.
    + intros line Hline.
      apply elem_of_app. right. apply elem_of_app. right. apply elem_of_app. left.
      eauto.
    + intros Hnone. unfold repo_block in Hblock. rewrite Hnone in Hblock.
      apply bind_Ok in Hblock as (name & _ & (url & _ & (date & _ & [= <-])%bind_Ok)%bind_Ok).
      right. left.
Qed.

Lemma rendering_with_fallbacks_witness :
  (∀ pr, pr ∈ [untitled_pr] → external pr → merged pr → dated (pr_createdAt pr))
  ∧ Forall renderable [undescribed_repo]
  ∧ ∃ doc,
      markdown_lines "March 05, 2024" [untitled_pr] [undescribed_repo] = Ok doc
      ∧ "- **[JuliaDynamics/Attractors.jl](#)** - No title *(merged 2024-03-05)*" ∈ doc
      ∧ "  - No description" ∈ doc.
Proof.
  assert (∀ pr, pr ∈ [untitled_pr] → external pr → merged pr → dated (pr_createdAt pr))
    as Hprs.
  { intros pr ->%list_elem_of_singleton _ _. eexists. vm_compute. reflexivity. }
  assert (Forall renderable [undescribed_repo]) as Hrepos.
  { constructor; [|constructor].
    intros _. split; [by eexists|]. intros _. split; [by eexists|].
    eexists. vm_compute. reflexivity. }
  split; [exact Hprs|]. split; [exact Hrepos|].
  destruct (rendering_with_fallbacks "March 05, 2024" _ _ Hprs Hrepos)
    as (doc & Hdoc & Hlines & Hblocks).
  exists doc. split; [exact Hdoc|]. split.
  - destruct (Hlines untitled_pr) as (date & Hdate & Hline); [left|].
    vm_compute in Hdate. injection Hdate as <-. exact Hline.
  - destruct (Hblocks undescribed_repo) as (block & _ & Hin & Hfallback);
      [left | by eexists |].
    apply Hin, Hfallback. reflexivity.
Defined.

(** C3, as stated, fails: a repository in a bucket whose URL is missing
    raises [KeyError], and a pull request whose creation timestamp is missing
    raises [ValueError]. *)
Lemma missing_field_raises :
  markdown_lines "March 05, 2024" [] [repo_without_url] = Raise (KeyError "url")
  ∧ markdown_lines "March 05, 2024" [undated_pr] []
    = Raise (ValueError "Invalid isoformat string: ''").
Proof. split; by vm_compute. Qed.

End rendering_facts.

(** ** More about the reconciler *)

Section reconciler_more.
Import Py Reconciler.

Implicit Types (existing incoming : list pull_request) (pr : pull_request).
Implicit Types (stored fetched : list repository) (repo : repository).

Lemma merge_prs_log_loop (seen : gset (option string)) incoming existing out :
  (foldl (merge_prs_step seen) (existing, out) incoming).2
  = out ++ ((λ pr, "Added new PR: " +:+ get (pr_title pr) "Unknown" +:+ " to "
                     +:+ nameWithOwner pr "Unknown")
              <$> filter (λ pr, pr_url pr ∉ seen) incoming).
Proof.
  revert existing out.
  induction incoming as [|pr incoming IH]; intros existing out; simpl.
  - by rewrite app_nil_r.
  - unfold merge_prs_step at 2. rewrite filter_cons.
    destruct (decide (pr_url pr ∉ seen)); simpl.
    + rewrite IH. by rewrite <- app_assoc.
    + apply IH.
Qed.

Lemma merge_repos_log_loop (d : gmap (option string) nat) fetched rows out :
  (foldl (merge_repos_step d) (rows, out) fetched).2
  = out ++ ((λ repo, "Added new repo: " +:+ get (repo_name repo) "None")
              <$> filter (λ repo, d !! repo_name repo = None) fetched).
Proof.
  revert rows out.
  induction fetched as [|repo fetched IH]; intros rows out; simpl.
  - by rewrite app_nil_r.
  - unfold merge_repos_step at 2. rewrite filter_cons.
    destruct (d !! repo_name repo) as [pos|] eqn:Hpos; simpl; rewrite IH; [done|].
    by rewrite <- app_assoc.
Qed.

(** One field under repeated updates: the last value written, or the value
    it had. *)
Lemma foldl_update_field {A} (x : option A) (updates : list (option A)) :
  foldl update_field x updates
  = match foldl update_field None updates with
    | Some v => Some v
    | None => x
    end.
Proof.
  revert x. induction updates as [|u updates IH]; intros x; [done|].
  simpl. rewrite IH. rewrite (IH (update_field None u)).
  destruct (foldl update_field None updates); [done|]. by destruct u.
Qed.

Lemma foldl_update_field_twice {A} (x : option A) (updates : list (option A)) :
  foldl update_field (foldl update_field x updates) updates
  = foldl update_field x updates.
Proof.
  rewrite (foldl_update_field (foldl update_field x updates)).
  rewrite (foldl_update_field x).
  by destruct (foldl update_field None updates).
Qed.

Lemma foldl_dict_update_field {A} (field : repository → option A) old
    (updates : list repository) :
  (∀ a b, field (dict_update a b) = update_field (field a) (field b)) →
  field (foldl dict_update old updates)
  = foldl update_field (field old) (field <$> updates).
Proof.
  intros Hfield. revert old.
  induction updates as [|u updates IH]; intros old; [done|].
  simpl. by rewrite IH, Hfield.
Qed.

Lemma repository_eq (a b : repository) :
  repo_name a = repo_name b → repo_description a = repo_description b →
  repo_url a = repo_url b → repo_isPrivate a = repo_isPrivate b →
  repo_createdAt a = repo_createdAt b →
  repo_stargazerCount a = repo_stargazerCount b → repo_isFork a = repo_isFork b →
  a = b.
Proof. destruct a, b. simpl. by intros -> -> -> -> -> -> ->. Qed.

(** Applying the same updates a second time changes nothing. *)
Lemma foldl_dict_update_twice old (updates : list repository) :
  foldl dict_update (foldl dict_update old updates) updates
  = foldl dict_update old updates.
Proof.
  apply repository_eq;
    rewrite (foldl_dict_update_field _ (foldl dict_update old updates)) by done;
    rewrite (foldl_dict_update_field _ old) by done;
    apply foldl_update_field_twice.
Qed.

Lemma dict_update_self repo : dict_update repo repo = repo.
Proof.
  apply repository_eq; simpl; by match goal with |- update_field ?x _ = _ => destruct x end.
Qed.

Lemma filter_same_key {A B} `{EqDecision B} (key : A → B) (l : list A) (x : A) :
  NoDup (key <$> l) → x ∈ l → filter (λ y, key y = key x) l = [x].
Proof.
  induction l as [|a l IH]; intros Hdistinct Hx; [by apply elem_of_nil in Hx|].
  rewrite fmap_cons in Hdistinct. apply NoDup_cons in Hdistinct as [Hfresh Hdistinct].
  rewrite filter_cons. apply elem_of_cons in Hx as [->|Hx].
  - rewrite decide_True by done. f_equal. apply filter_none.
    intros y Hy Heq. apply Hfresh. rewrite <- Heq. apply list_elem_of_fmap. eauto.
  - rewrite decide_False; [by apply IH|].
    intros Heq. apply Hfresh. rewrite Heq. apply list_elem_of_fmap. eauto.
Qed.

Lemma NoDup_app_fresh_iff {A B} `{EqDecision B} (key : A → B) (stored fetched : list A) :
  NoDup ((key <$> stored) ++ (key <$> filter (λ x, key x ∉ key <$> stored) fetched))
  ↔ NoDup (key <$> stored)
    ∧ NoDup (key <$> filter (λ x, key x ∉ key <$> stored) fetched).
Proof.
  rewrite NoDup_app. split; [tauto|]. intros [Hstored Hfresh].
  split; [done|]. split; [|done].
  intros k Hk (x & -> & [Hnew _]%list_elem_of_filter)%list_elem_of_fmap. done.
Qed.

(** The idempotence of the merges, for the runs of [update_database]. *)
Lemma merge_prs_append_again existing incoming :
  merge_prs (merge_prs existing incoming) incoming = merge_prs existing incoming.
Proof.
  rewrite (merge_prs_unfold (merge_prs existing incoming)).
  rewrite filter_none; [by rewrite app_nil_r|].
  intros pr Hpr Hout. apply Hout, urls_merge_prs. right. apply list_elem_of_fmap. eauto.
Qed.

(** X1. [merge_prs] only appends: the result is the stored list, unchanged,
    followed by records taken from the incoming list in their order; a record
    is appended exactly when its URL is not a stored one.  A stored record is
    never rewritten or removed, whatever the incoming list says about it. *)
Theorem merge_prs_append_only existing incoming :
  ∃ added,
    merge_prs existing incoming = existing ++ added
    ∧ added `sublist_of` incoming
    ∧ ∀ pr, pr ∈ added ↔ pr ∈ incoming ∧ pr_url pr ∉ urls existing.
Proof.
  exists (filter (λ pr, pr_url pr ∉ urls existing) incoming).
  split; [apply merge_prs_unfold|]. split; [apply sublist_filter|].
  intros pr. rewrite list_elem_of_filter. tauto.
Qed.

(** X2. The URLs of the merged list are pairwise distinct exactly when those
    of the stored list are and the incoming records with a new URL have
    pairwise distinct URLs: the merge protects the store against what it
    already holds, not against repetitions inside one incoming list. *)
Theorem merge_prs_distinct_urls existing incoming :
  NoDup (urls (merge_prs existing incoming))
  ↔ NoDup (urls existing)
    ∧ NoDup (urls (filter (λ pr, pr_url pr ∉ urls existing) incoming)).
Proof.
  rewrite merge_prs_unfold. unfold urls. rewrite fmap_app. apply NoDup_app_fresh_iff.
Qed.

(** X3. The names of the merged repositories are pairwise distinct exactly
    when those of the stored list are and the fetched records with a new name
    have pairwise distinct names. *)
Theorem merge_repos_distinct_names stored fetched :
  NoDup (names (merge_repos stored fetched))
  ↔ NoDup (names stored)
    ∧ NoDup (names (filter (λ repo, repo_name repo ∉ names stored) fetched)).
Proof.
  rewrite merge_repos_unfold. unfold names at 1. rewrite fmap_app.
  fold (names (updated_records stored fetched)). rewrite updated_records_names.
  apply NoDup_app_fresh_iff.
Qed.

(** X4. Merging an empty list changes nothing, and merging into an empty
    store stores the incoming list as it is, repetitions included. *)
Theorem merge_with_empty existing incoming stored fetched :
  merge_prs existing [] = existing
  ∧ merge_prs [] incoming = incoming
  ∧ merge_repos stored [] = stored
  ∧ merge_repos [] fetched = fetched.
Proof.
  split; [by rewrite merge_prs_unfold, filter_nil, app_nil_r|].
  split.
  { rewrite merge_prs_unfold. simpl. induction incoming as [|pr incoming IH]; [done|].
    rewrite filter_cons_True by apply not_elem_of_nil. by rewrite IH. }
  split; [done|].
  rewrite merge_repos_unfold. simpl. induction fetched as [|repo fetched IH]; [done|].
  rewrite filter_cons_True by apply not_elem_of_nil. by rewrite IH.
Qed.

Lemma merge_repos_append_again stored fetched :
  NoDup (names (filter (λ repo, repo_name repo ∉ names stored) fetched)) →
  merge_repos (merge_repos stored fetched) fetched = merge_repos stored fetched.
Proof.
  intros Hdistinct.
  set (new := filter (λ repo, repo_name repo ∉ names stored) fetched) in *.
  set (updated := updated_records stored fetched).
  assert (merge_repos stored fetched = updated ++ new) as Hfirst
    by apply merge_repos_unfold.
  assert (names (updated ++ new) = names stored ++ names new) as Hnames.
  { unfold names at 1. rewrite fmap_app. fold (names updated) (names new).
    unfold updated. by rewrite updated_records_names. }
  assert (length updated = length stored) as Hlength by apply length_imap.
  rewrite Hfirst at 1. rewrite merge_repos_unfold, Hfirst.
  rewrite filter_none, app_nil_r; cycle 1.
  { intros repo Hrepo Hout. apply Hout. rewrite Hnames, elem_of_app.
    destruct (decide (repo_name repo ∈ names stored)) as [|Hnew]; [by left|]. right.
    apply list_elem_of_fmap. exists repo. split; [done|].
    by apply list_elem_of_filter. }
  apply list_eq. intros i.
  destruct ((updated ++ new) !! i) as [old|] eqn:Hold; cycle 1.
  { unfold updated_records. by rewrite list_lookup_imap, Hold. }
  rewrite (updated_records_lookup _ _ _ _ Hold). f_equal.
  case_decide as Hshadowed; [done|].
  destruct (decide (i < length stored)%nat) as [Hin|Hbeyond].
  - rewrite lookup_app_l in Hold by lia.
    destruct (lookup_lt_is_Some_2 stored i Hin) as [original Horiginal].
    unfold updated in Hold. rewrite (updated_records_lookup _ _ _ _ Horiginal) in Hold.
    injection Hold as Hold.
    assert (repo_name old = repo_name original) as Hname.
    { rewrite <- Hold. case_decide; [done|].
      apply dict_update_same_name, Forall_forall.
      by intros repo [? _]%list_elem_of_filter. }
    case_decide as Hlater.
    + exfalso. apply Hshadowed. rewrite Hnames, Hname.
      rewrite drop_app_le by (unfold names; rewrite length_fmap; lia).
      apply elem_of_app. by left.
    + rewrite <- Hold at 1. rewrite Hname. rewrite foldl_dict_update_twice. done.
  - rewrite lookup_app_r in Hold by lia.
    assert (old ∈ new) as Hnew by (by eapply list_elem_of_lookup_2).
    assert (filter (λ repo, repo_name repo = repo_name old) fetched
            = filter (λ repo, repo_name repo = repo_name old) new) as ->.
    { unfold new. rewrite list_filter_filter. apply list_filter_iff. intros repo.
      split; [|tauto]. intros Heq. split; [done|]. rewrite Heq.
      by apply list_elem_of_filter in Hnew as [? _]. }
    rewrite (filter_same_key repo_name new old Hdistinct Hnew). simpl.
    apply dict_update_self.
Qed.

(** X5. When the fetched records with a new name have pairwise distinct
    names, merging the same fetched list a second time changes nothing: the
    updates of the first merge are applied again with no effect and nothing
    is appended. *)
Theorem merge_repos_idempotent stored fetched :
  NoDup (names (filter (λ repo, repo_name repo ∉ names stored) fetched)) →
  merge_repos (merge_repos stored fetched) fetched = merge_repos stored fetched.
Proof. apply merge_repos_append_again. Qed.

Lemma merge_repos_idempotent_witness :
  NoDup (names (filter (λ repo, repo_name repo ∉ names [sample_repo "foo.jl" "old" 1])
                  [sample_repo "foo.jl" "new" 2; sample_repo "bar" "" 0]))
  ∧ merge_repos
      (merge_repos [sample_repo "foo.jl" "old" 1]
         [sample_repo "foo.jl" "new" 2; sample_repo "bar" "" 0])
      [sample_repo "foo.jl" "new" 2; sample_repo "bar" "" 0]
    = [sample_repo "foo.jl" "new" 2; sample_repo "bar" "" 0].
Proof.
  assert (NoDup (names (filter (λ repo, repo_name repo ∉ names [sample_repo "foo.jl" "old" 1])
                          [sample_repo "foo.jl" "new" 2; sample_repo "bar" "" 0])))
    as Hdistinct.
  { vm_compute. repeat constructor; intros Hin; by apply elem_of_nil in Hin. }
  split; [exact Hdistinct|].
  rewrite (merge_repos_idempotent _ _ Hdistinct). by vm_compute.
Defined.

(** X6. Each merge prints one line per record it appends and nothing else,
    in the order of the appended records: the title and the repository of a
    pull request ([Unknown] for a missing one), the name of a repository. *)
Theorem merge_notifications existing incoming stored fetched :
  (merge_prs_io existing incoming).2
  = (λ pr, "Added new PR: " +:+ get (pr_title pr) "Unknown" +:+ " to "
             +:+ nameWithOwner pr "Unknown")
      <$> filter (λ pr, pr_url pr ∉ urls existing) incoming
  ∧ (merge_repos_io stored fetched).2
    = (λ repo, "Added new repo: " +:+ get (repo_name repo) "None")
        <$> filter (λ repo, repo_name repo ∉ names stored) fetched
  ∧ length (merge_prs_io existing incoming).2
    = (length (merge_prs existing incoming) - length existing)%nat
  ∧ length (merge_repos_io stored fetched).2
    = (length (merge_repos stored fetched) - length stored)%nat.
Proof.
  assert ((merge_prs_io existing incoming).2
          = (λ pr, "Added new PR: " +:+ get (pr_title pr) "Unknown" +:+ " to "
                     +:+ nameWithOwner pr "Unknown")
              <$> filter (λ pr, pr_url pr ∉ urls existing) incoming) as Hprs.
  { unfold merge_prs_io. rewrite merge_prs_log_loop. simpl. f_equal.
    apply list_filter_iff. intros pr. unfold urls. by rewrite elem_of_list_to_set. }
  assert ((merge_repos_io stored fetched).2
          = (λ repo, "Added new repo: " +:+ get (repo_name repo) "None")
              <$> filter (λ repo, repo_name repo ∉ names stored) fetched) as Hrepos.
  { unfold merge_repos_io. rewrite merge_repos_log_loop. simpl. f_equal.
    apply list_filter_iff. intros repo. apply existing_dict_None. }
  split; [done|]. split; [done|]. rewrite Hprs, Hrepos, !length_fmap. split.
  - rewrite merge_prs_unfold, length_app. lia.
  - rewrite merge_repos_unfold, length_app. unfold updated_records.
    rewrite length_imap. lia.
Qed.

End reconciler_more.

(** ** The store and the workflow *)

Section store_facts.
Import Py Reconciler Store.

Implicit Types (fs : files) (db : database) (gh : github).

(** X7. What [save_database] writes, [load_database] reads back: the two
    lists as they were saved and the time of saving; the totals of the
    metadata are the lengths of the lists; the report is not touched.  After
    a save the report builder finds its database, which it does exactly when
    both lists are on disk, whatever the metadata. *)
Theorem save_load_round_trip now db fs :
  load_database (save_database now db fs)
  = {| db_prs := db_prs db; db_repos := db_repos db; db_last_update := Some now |}
  ∧ metadata_json (save_database now db fs)
    = Some (Metadata (Some now) (length (db_prs db)) (length (db_repos db)))
  ∧ contributions_md (save_database now db fs) = contributions_md fs
  ∧ (Generate.load_database (save_database now db fs)).1 = Some (db_prs db, db_repos db)
  ∧ ((Generate.load_database fs).1 = None ↔ prs_json fs = None ∨ repos_json fs = None).
Proof.
  repeat split; try done.
  - unfold Generate.load_database. destruct (prs_json fs), (repos_json fs); simpl; auto.
    intros [=].
  - unfold Generate.load_database. by intros [-> | ->]; destruct (prs_json fs).
Qed.

Lemma update_database_unfold now gh fs :
  update_database now gh fs
  = let db := load_database fs in
    let new_prs := (run_gh_command "" (closed_prs gh)).1 ++ (run_gh_command "" (open_prs gh)).1 in
    let new_repos := (run_gh_command "" (user_repos gh)).1 in
    let merged :=
      {| db_prs := merge_prs (db_prs db) new_prs;
         db_repos := merge_repos (db_repos db) new_repos;
         db_last_update := db_last_update db |} in
    (merged, save_database now merged fs, (update_database now gh fs).2).
Proof.
  unfold update_database, fetch_new_data, merge_prs, merge_repos.
  destruct (closed_prs gh), (open_prs gh), (user_repos gh); simpl;
    repeat match goal with
           | |- context [merge_prs_io ?a ?b] => destruct (merge_prs_io a b)
           | |- context [merge_repos_io ?a ?b] => destruct (merge_repos_io a b)
           end; reflexivity.
Qed.

(** X8. A run of [update_database] never loses a stored pull request: the
    stored list after the run is the stored list before it followed by the
    added records.  The stored repositories keep their positions and names
    and their number does not decrease.  The files hold the lists the
    function returns, the totals of the metadata are their lengths and its
    time is the time of the run; the [last_update] of the returned dictionary
    is still the one read at the start. *)
Theorem update_database_extends_store now gh fs :
  let before := load_database fs in
  let db := (update_database now gh fs).1.1 in
  let after := (update_database now gh fs).1.2 in
  (∃ added, db_prs db = db_prs before ++ added)
  ∧ (length (db_repos before) ≤ length (db_repos db))%nat
  ∧ names (take (length (db_repos before)) (db_repos db)) = names (db_repos before)
  ∧ db_last_update db = db_last_update before
  ∧ load_database after
    = {| db_prs := db_prs db; db_repos := db_repos db; db_last_update := Some now |}
  ∧ metadata_json after
    = Some (Metadata (Some now) (length (db_prs db)) (length (db_repos db)))
  ∧ contributions_md after = contributions_md fs.
Proof.
  intros before db after. unfold db, after. rewrite update_database_unfold.
  cbv zeta. cbn [fst snd db_prs db_repos db_last_update]. fold before.
  set (new_repos := (run_gh_command "" (user_repos gh)).1).
  split; [eexists; apply merge_prs_unfold|].
  rewrite merge_repos_unfold.
  assert (length (updated_records (db_repos before) new_repos)
          = length (db_repos before)) as Hlength by apply length_imap.
  split; [rewrite length_app; lia|].
  split; [|done].
  rewrite take_app_length' by lia. apply updated_records_names.
Qed.

Lemma run_gh_command_without_records {A} (cmd : string) (output : gh_output A) :
  without_records output → (run_gh_command cmd output).1 = [].
Proof. by destruct output. Qed.

(** X9. When none of the three commands of the GitHub CLI gives records (it
    fails or its output is not JSON), the run does not stop: it saves the
    stored lists as they were, creating empty ones on a first run, and sets
    the time of the metadata. *)
Theorem update_database_without_records now gh fs :
  without_records (closed_prs gh) → without_records (open_prs gh) →
  without_records (user_repos gh) →
  let after := (update_database now gh fs).1.2 in
  prs_json after = Some (db_prs (load_database fs))
  ∧ repos_json after = Some (db_repos (load_database fs))
  ∧ metadata_json after
    = Some (Metadata (Some now) (length (db_prs (load_database fs)))
              (length (db_repos (load_database fs)))).
Proof.
  intros Hclosed Hopen Hrepos after. unfold after. rewrite update_database_unfold.
  cbv zeta. rewrite !run_gh_command_without_records by done.
  cbn [fst snd app save_database prs_json repos_json metadata_json db_prs db_repos].
  rewrite merge_prs_unfold, filter_nil, app_nil_r.
  change (merge_repos (db_repos (load_database fs)) []) with (db_repos (load_database fs)).
  done.
Qed.

Lemma update_database_without_records_witness :
  without_records (closed_prs failing_github)
  ∧ without_records (open_prs failing_github)
  ∧ without_records (user_repos failing_github)
  ∧ prs_json (update_database "2024-03-05T12:00:00" failing_github sample_files).1.2
    = Some (db_prs (load_database sample_files)).
Proof.
  split; [exact I|]. split; [exact I|]. split; [exact I|].
  exact (proj1 (update_database_without_records "2024-03-05T12:00:00" failing_github
                  sample_files I I I)).
Defined.

(** X10. A second run with the same answers of the GitHub CLI stores the
    same pull requests as the first; it stores the same repositories when
    the fetched repositories with a name new to the first run have pairwise
    distinct names. *)
Theorem update_database_twice now later gh fs :
  let first := (update_database now gh fs).1.2 in
  let second := (update_database later gh first).1.2 in
  prs_json second = prs_json first
  ∧ (NoDup (names (filter (λ repo, repo_name repo ∉ names (db_repos (load_database fs)))
                     (run_gh_command "" (user_repos gh)).1)) →
     repos_json second = repos_json first).
Proof.
  intros first second. unfold second, first.
  rewrite (update_database_unfold later), (update_database_unfold now).
  cbv zeta.
  cbn [fst snd save_database load_database prs_json repos_json metadata_json db_prs
         db_repos].
  split.
  - f_equal. apply merge_prs_append_again.
  - intros Hdistinct. f_equal. by apply merge_repos_append_again.
Qed.

Lemma update_database_twice_witness :
  NoDup (names (filter (λ repo, repo_name repo ∉ names (db_repos (load_database sample_files)))
                  (run_gh_command "" (user_repos sample_github)).1))
  ∧ repos_json
      (update_database "2024-03-06T12:00:00" sample_github
         (update_database "2024-03-05T12:00:00" sample_github sample_files).1.2).1.2
    = repos_json (update_database "2024-03-05T12:00:00" sample_github sample_files).1.2.
Proof.
  assert (NoDup (names (filter (λ repo, repo_name repo
                                          ∉ names (db_repos (load_database sample_files)))
                          (run_gh_command "" (user_repos sample_github)).1)))
    as Hdistinct.
  { vm_compute. repeat constructor; intros Hin; by apply elem_of_nil in Hin. }
  split; [exact Hdistinct|].
  exact (proj2 (update_database_twice "2024-03-05T12:00:00" "2024-03-06T12:00:00"
                  sample_github sample_files) Hdistinct).
Defined.

End store_facts.

Section workflow_facts.
Import Py Reconciler Store.

Implicit Types (fs : files) (gh : github).

Lemma generate_main_on_database today fs prs repos :
  prs_json fs = Some prs → repos_json fs = Some repos →
  (Generate.main today fs).1
  = match Report.markdown_lines today prs repos with
    | Ok md => (Generate.Exit 0, with_report (join Workflow.newline md) fs)
    | Raise e => (Generate.Uncaught e, fs)
    end.
Proof.
  intros Hprs Hrepos.
  unfold Generate.main, Generate.generate_markdown, Generate.load_database.
  unfold with_report. rewrite Hprs, Hrepos. cbn [Report.generate_markdown].
  destruct (Report.markdown_lines today prs repos); reflexivity.
Qed.

Lemma workflow_main_unfold traceback now today gh fs :
  (Workflow.main traceback now today gh fs).1
  = let stored := (update_database now gh fs).1.2 in
    match (Generate.main today stored).1.1 with
    | Generate.Exit 0 => (0%nat, (Generate.main today stored).1.2)
    | _ => (1%nat, (Generate.main today stored).1.2)
    end.
Proof.
  unfold Workflow.main.
  destruct (update_database now gh fs) as [[db stored] lines_update].
  cbn [fst snd Workflow.run_script Workflow.process Workflow.returncode negb Nat.eqb].
  destruct (Generate.main today stored) as [[how final] lines_generate].
  cbn [fst snd]. destruct how as [[|code]|e]; reflexivity.
Qed.

(** X11. The workflow as a whole: the database is refreshed in any case; the
    exit code is 0 exactly when the report can be rendered from the refreshed
    database, and [contributions.md] then holds the rendered document; when
    the rendering raises, the exit code is 1 and [contributions.md] is left
    as it was.  The report builder never misses its database, since the
    refresh has just written it. *)
Theorem workflow_outcome traceback now today gh fs :
  let db := (update_database now gh fs).1.1 in
  let stored := (update_database now gh fs).1.2 in
  let code := (Workflow.main traceback now today gh fs).1.1 in
  let final := (Workflow.main traceback now today gh fs).1.2 in
  (Generate.load_database stored).1 = Some (db_prs db, db_repos db)
  ∧ match Report.markdown_lines today (db_prs db) (db_repos db) with
    | Ok md => code = 0%nat ∧ final = with_report (join Workflow.newline md) stored
    | Raise _ => code = 1%nat ∧ final = stored
    end.
Proof.
  intros db stored code final. unfold code, final. rewrite workflow_main_unfold.
  cbv zeta. fold stored.
  assert (prs_json stored = Some (db_prs db) ∧ repos_json stored = Some (db_repos db))
    as [Hprs Hrepos].
  { unfold stored, db. rewrite update_database_unfold. done. }
  split; [unfold Generate.load_database; by rewrite Hprs, Hrepos|].
  rewrite (generate_main_on_database today stored _ _ Hprs Hrepos).
  by destruct (Report.markdown_lines today (db_prs db) (db_repos db)).
Qed.

End workflow_facts.

(** ** Grouping and counting *)

Section grouping_facts.
Import Py.
Context {A : Type}.

Implicit Types (d : list (string * list A)) (k key : string) (x : A) (xs g : list A).

Lemma dict_get_append d key k x :
  dict_get k (dict_append key x d)
  = if decide (k = key) then Some (default [] (dict_get key d) ++ [x]) else dict_get k d.
Proof.
  unfold dict_get. induction d as [|[k' g] d IH]; simpl.
  - destruct (String.eqb_spec key k) as [->|Hne]; simpl.
    + by rewrite decide_True.
    + by rewrite decide_False.
  - destruct (String.eqb_spec k' key) as [->|Hne]; simpl.
    + destruct (String.eqb_spec key k) as [->|Hne']; simpl.
      * by rewrite decide_True.
      * by rewrite decide_False.
    + destruct (String.eqb_spec k' k) as [->|Hne']; simpl.
      * by rewrite decide_False.
      * apply IH.
Qed.

Lemma dict_append_keys d key x :
  (dict_append key x d).*1 = if decide (key ∈ d.*1) then d.*1 else d.*1 ++ [key].
Proof.
  induction d as [|[k' g] d IH]; cbn [dict_append].
  - rewrite decide_False; [done|]. apply not_elem_of_nil.
  - destruct (String.eqb_spec k' key) as [->|Hne]; rewrite !fmap_cons; cbn [fst].
    + rewrite decide_True; [done|]. left.
    + rewrite IH. destruct (decide (key ∈ d.*1)) as [Hin|Hout].
      * rewrite decide_True; [done|]. by right.
      * rewrite decide_False; [done|]. intros [?|?]%elem_of_cons; congruence.
Qed.

Lemma dict_append_values d key x :
  mjoin (dict_append key x d).*2 ≡ₚ mjoin d.*2 ++ [x].
Proof.
  induction d as [|[k' g] d IH]; simpl; [done|].
  destruct (String.eqb_spec k' key) as [->|Hne]; simpl.
  - rewrite <- !app_assoc. f_equiv. apply Permutation_app_comm.
  - rewrite IH. by rewrite app_assoc.
Qed.

Lemma grouped_snoc (key : A → string) xs x :
  grouped key (xs ++ [x]) = dict_append (key x) x (grouped key xs).
Proof. unfold grouped. by rewrite foldl_snoc. Qed.

Lemma grouped_keys_NoDup (key : A → string) xs : NoDup (grouped key xs).*1.
Proof.
  induction xs as [|x xs IH] using rev_ind; [constructor|].
  rewrite grouped_snoc, dict_append_keys. case_decide as Hin; [done|].
  apply NoDup_app. split; [done|]. split; [|apply NoDup_singleton].
  intros k Hk ->%list_elem_of_singleton. done.
Qed.

Lemma grouped_values (key : A → string) xs : mjoin (grouped key xs).*2 ≡ₚ xs.
Proof.
  induction xs as [|x xs IH] using rev_ind; [done|].
  by rewrite grouped_snoc, dict_append_values, IH.
Qed.

Lemma dict_get_grouped (key : A → string) xs k :
  dict_get k (grouped key xs)
  = match filter (λ x, key x = k) xs with
    | [] => None
    | g => Some g
    end.
Proof.
  induction xs as [|x xs IH] using rev_ind; [done|].
  rewrite grouped_snoc, dict_get_append, filter_app, filter_cons, filter_nil.
  destruct (decide (k = key x)) as [->|Hne].
  - rewrite decide_True by done. rewrite IH.
    by destruct (filter (λ x0, key x0 = key x) xs).
  - rewrite decide_False by done. by rewrite IH, app_nil_r.
Qed.

Lemma dict_get_elem_of {B} (l : list (string * B)) k (v : B) :
  NoDup l.*1 → (k, v) ∈ l ↔ dict_get k l = Some v.
Proof.
  unfold dict_get. induction l as [|[k' v'] l IH]; simpl; intros Hkeys.
  - split; [by intros ?%elem_of_nil | done].
  - apply NoDup_cons in Hkeys as [Hfresh Hkeys].
    destruct (String.eqb_spec k' k) as [->|Hne]; simpl.
    + split.
      * intros [[= ->]|Hin]%elem_of_cons; [done|]. exfalso. apply Hfresh.
        apply list_elem_of_fmap. by exists (k, v).
      * intros [= ->]. left.
    + rewrite <- IH by done. split.
      * intros [[= -> ->]|Hin]%elem_of_cons; done.
      * by right.
Qed.

(** The group of a key holds the elements with that key, in their order. *)
Lemma elem_of_grouped (key : A → string) xs k g :
  (k, g) ∈ grouped key xs ↔ g = filter (λ x, key x = k) xs ∧ g ≠ [].
Proof.
  rewrite dict_get_elem_of by apply grouped_keys_NoDup. rewrite dict_get_grouped.
  destruct (filter (λ x, key x = k) xs) as [|x g'].
  - split; [done | by intros [-> ?]].
  - split; [by intros [= <-] | by intros [-> _]].
Qed.

Lemma dict_incr_lengths d key x :
  dict_incr key ((λ item : string * list A, (item.1, length item.2)) <$> d)
  = (λ item : string * list A, (item.1, length item.2)) <$> dict_append key x d.
Proof.
  induction d as [|[k' g] d IH]; [done|].
  rewrite fmap_cons. cbn [dict_incr dict_append fst snd].
  destruct (String.eqb k' key); rewrite fmap_cons; cbn [fst snd].
  - rewrite length_app. simpl. do 2 f_equal. lia.
  - by rewrite IH.
Qed.

(** Counting is grouping and taking the sizes of the groups. *)
Lemma counted_grouped (key : A → string) xs :
  counted key xs = (λ item : string * list A, (item.1, length item.2)) <$> grouped key xs.
Proof.
  induction xs as [|x xs IH] using rev_ind; [done|].
  rewrite grouped_snoc. unfold counted in *. rewrite foldl_snoc, IH.
  apply dict_incr_lengths.
Qed.

End grouping_facts.

(** ** More about the report builder *)

Section report_more.
Import Py Report.

Implicit Types (prs all_prs g : list pull_request) (pr : pull_request).
Implicit Types (repos : list repository) (repo : repository).

Lemma external_closed_prs_perm all_prs :
  external_closed_prs all_prs ≡ₚ filter (λ pr, external pr ∧ merged pr) all_prs.
Proof.
  unfold external_closed_prs. rewrite sort_desc_perm.
  induction all_prs as [|pr all_prs IH]; [done|].
  rewrite filter_cons. cbn [List.filter].
  destruct (decide (external pr ∧ merged pr)) as [[Hexternal Hmerged]|Hnot].
  - unfold external, merged in *. rewrite Hexternal, bool_decide_eq_true_2 by done.
    simpl. by rewrite IH.
  - destruct (negb _ && bool_decide _) eqn:Htest; [|done].
    exfalso. apply Hnot. apply andb_true_iff in Htest as [Hexternal Hmerged].
    apply negb_true_iff in Hexternal. apply bool_decide_eq_true in Hmerged. done.
Qed.

Lemma for_each_extend_Ok {A B} (f : A → result (list B)) (xs : list A) (ys : list B) :
  for_each_extend f xs = Ok ys
  ↔ ∃ blocks, Forall2 (λ x block, f x = Ok block) xs blocks ∧ ys = mjoin blocks.
Proof.
  unfold for_each_extend. rewrite bind_Ok. split.
  - intros (blocks & Hblocks%for_each_Ok & [= <-]). eauto.
  - intros (blocks & Hblocks%for_each_Ok & ->). eauto.
Qed.

Section sorted_input.
Context {A : Type} (lt : A → A → bool).

Lemma descending_sublist (l sub : list A) :
  descending lt l → sub `sublist_of` l → descending lt sub.
Proof.
  unfold descending. intros Hsorted Hsub. revert Hsorted.
  induction Hsub as [|x sub l Hsub IH|x sub l Hsub IH]; intros Hsorted.
  - constructor.
  - apply StronglySorted_inv in Hsorted as [Hl Hx]. constructor; [by apply IH|].
    rewrite Forall_forall in *. intros y Hy. apply Hx. by eapply elem_of_sublist.
  - apply StronglySorted_inv in Hsorted as [Hl _]. by apply IH.
Qed.

(** Sorting a list that is in order already changes nothing. *)
Lemma sort_desc_descending_id (l : list A) : descending lt l → sort_desc lt l = l.
Proof.
  unfold descending. induction 1 as [|x l Hl IH Hx]; [done|].
  unfold sort_desc in *. simpl. rewrite IH.
  destruct l as [|y l]; [done|]. simpl.
  apply Forall_cons in Hx as [Hxy _]. by rewrite Hxy.
Qed.

End sorted_input.

Lemma len_lt_order {A} :
  (∀ x y : string * list A, len_lt x y = true → len_lt y x = false)
  ∧ (∀ x y z : string * list A,
       len_lt x y = false → len_lt y z = false → len_lt x z = false).
Proof.
  unfold len_lt. split.
  - intros x y ?%Nat.ltb_lt. apply Nat.ltb_ge. lia.
  - intros x y z ?%Nat.ltb_ge ?%Nat.ltb_ge. apply Nat.ltb_ge. lia.
Qed.

Lemma count_lt_order :
  (∀ x y, count_lt x y = true → count_lt y x = false)
  ∧ (∀ x y z, count_lt x y = false → count_lt y z = false → count_lt x z = false).
Proof.
  unfold count_lt. split.
  - intros x y ?%Nat.ltb_lt. apply Nat.ltb_ge. lia.
  - intros x y z ?%Nat.ltb_ge ?%Nat.ltb_ge. apply Nat.ltb_ge. lia.
Qed.

Lemma ltb_irrefl (s : string) : String.ltb s s = false.
Proof. destruct (String.ltb s s) eqn:Hlt; [|done]. by rewrite (ltb_asym _ _ Hlt) in Hlt. Qed.

Lemma ltb_trans (s t u : string) :
  String.ltb s t = true → String.ltb t u = true → String.ltb s u = true.
Proof.
  rewrite !ltb_lt. apply OrderedTypeEx.String_as_OT.lt_trans.
Qed.

Lemma stars_created_lt_order :
  (∀ x y, stars_created_lt x y = true → stars_created_lt y x = false)
  ∧ (∀ x y z, stars_created_lt x y = false → stars_created_lt y z = false →
              stars_created_lt x z = false).
Proof.
  unfold stars_created_lt. split.
  - intros x y.
    set (sx := get (repo_stargazerCount x) 0%Z). set (sy := get (repo_stargazerCount y) 0%Z).
    intros [Hlt%Z.ltb_lt|[Heq%Z.eqb_eq Hlt]%andb_true_iff]%orb_true_iff.
    + apply orb_false_iff. split; [apply Z.ltb_ge; lia|].
      apply andb_false_iff. left. apply Z.eqb_neq. lia.
    + apply orb_false_iff. split; [apply Z.ltb_ge; lia|].
      apply andb_false_iff. right. by apply ltb_asym.
  - intros x y z.
    set (sx := get (repo_stargazerCount x) 0%Z). set (sy := get (repo_stargazerCount y) 0%Z).
    set (sz := get (repo_stargazerCount z) 0%Z).
    intros [Hxy%Z.ltb_ge Hxy']%orb_false_iff [Hyz%Z.ltb_ge Hyz']%orb_false_iff.
    apply orb_false_iff. split; [apply Z.ltb_ge; lia|].
    apply andb_false_iff.
    destruct (Z.eqb_spec sx sz) as [Hxz|]; [right | by left].
    assert (sx = sy ∧ sy = sz) as [Hsxy Hsyz] by lia.
    apply Z.eqb_eq in Hsxy, Hsyz. rewrite Hsxy in Hxy'. rewrite Hsyz in Hyz'.
    simpl in *. by eapply ltb_negtrans.
Qed.

Lemma before_slash_prefix (n : string) :
  contains "/" n = true → String.prefix (before_slash n +:+ "/") n = true.
Proof.
  induction n as [|c n IH]; [done|].
  cbn [contains before_slash]. destruct (Ascii.eqb_spec c "/") as [->|Hne].
  - intros _. change (String.prefix "" n = true). apply prefix_empty.
  - change (String.prefix "/" (String c n))
      with (if ascii_dec "/" c then String.prefix "" n else false).
    destruct (ascii_dec "/" c) as [<-|_]; [done|]. simpl. intros Hrest.
    change (String c (before_slash n) +:+ "/") with (String c (before_slash n +:+ "/")).
    simpl. destruct (ascii_dec c c); [by apply IH | done].
Qed.

(** A pull request to a repository that is not under [oameye/] is not filed
    under the organization [oameye]. *)
Lemma external_organization pr : external pr → organization pr ≠ "oameye".
Proof.
  unfold external, organization, startswith, nameWithOwner.
  destruct (ref_nameWithOwner (get_repository pr)) as [n|]; simpl; [|done].
  intros Hexternal. destruct (contains "/" n) eqn:Hslash; [|done].
  intros Horg. apply before_slash_prefix in Hslash. rewrite Horg in Hslash.
  change ("oameye" +:+ "/") with "oameye/" in Hslash. congruence.
Qed.

Lemma group_by_org_grouped prs :
  group_by_org prs
  = grouped organization (filter (λ pr, organization pr ≠ "oameye") prs).
Proof.
  unfold group_by_org, grouped. generalize (@nil (string * list pull_request)).
  induction prs as [|pr prs IH]; intros acc; [done|].
  rewrite filter_cons. cbn [foldl]. rewrite IH. unfold group_step at 1.
  fold (organization pr).
  destruct (String.eqb_spec (organization pr) "oameye") as [Heq|Hne]; simpl.
  - by rewrite decide_False by (by intros ?).
  - by rewrite decide_True.
Qed.

Lemma filter_all {A} (P : A → Prop) `{!∀ x, Decision (P x)} (l : list A) :
  (∀ x, x ∈ l → P x) → filter P l = l.
Proof.
  induction l as [|x l IH]; intros Hall; [done|].
  rewrite filter_cons_True by (apply Hall; left).
  f_equal. apply IH. intros y Hy. apply Hall. by right.
Qed.

Lemma filter_organization org prs :
  org ≠ "oameye" →
  filter (λ pr, organization pr = org) (filter (λ pr, organization pr ≠ "oameye") prs)
  = filter (λ pr, organization pr = org) prs.
Proof.
  intros Horg. rewrite list_filter_filter. apply list_filter_iff. intros pr.
  split; [tauto|]. intros Heq. split; [done|]. by rewrite Heq.
Qed.

Lemma elem_of_group_by_org prs org g :
  (org, g) ∈ group_by_org prs
  ↔ g = filter (λ pr, organization pr = org) prs ∧ g ≠ [] ∧ org ≠ "oameye".
Proof.
  rewrite group_by_org_grouped, elem_of_grouped.
  destruct (decide (org = "oameye")) as [->|Horg].
  - split; [|tauto]. intros [-> Hnonempty]. exfalso. apply Hnonempty.
    apply filter_none. by intros pr [? _]%list_elem_of_filter.
  - rewrite filter_organization by done. tauto.
Qed.

(** X12. The section of recent contributions has one line for each of the
    first ten external, merged pull requests in the order of decreasing
    creation timestamp, and no other entry: ten lines when there are ten or
    more such pull requests, all of them otherwise. *)
Theorem recent_section_cap all_prs lines :
  recent_section all_prs = Ok lines →
  ∃ entries,
    lines = ["## 🔥 Recent Merged Contributions (External Repositories)"; ""]
            ++ entries ++ [""]
    ∧ Forall2 (λ pr line, pr_line pr = Ok line)
        (take 10 (external_closed_prs all_prs)) entries
    ∧ length entries
      = (length (filter (λ pr, external pr ∧ merged pr) all_prs) `min` 10)%nat
    ∧ descending created_lt (external_closed_prs all_prs)
    ∧ external_closed_prs all_prs ≡ₚ filter (λ pr, external pr ∧ merged pr) all_prs.
Proof.
  unfold recent_section. intros (entries & Hentries%for_each_Ok & [= <-])%bind_Ok.
  exists entries. split; [done|]. split; [done|].
  split; [|split; [apply sort_created_descending | apply external_closed_prs_perm]].
  rewrite <- (Forall2_length _ _ _ Hentries), length_take.
  rewrite (external_closed_prs_perm all_prs). lia.
Qed.

Lemma recent_section_cap_witness :
  ∃ lines,
    recent_section fifteen_prs = Ok lines
    ∧ ∃ entries,
        lines = ["## 🔥 Recent Merged Contributions (External Repositories)"; ""]
                ++ entries ++ [""]
        ∧ length entries = 10%nat.
Proof.
  assert (∃ lines, recent_section fifteen_prs = Ok lines) as [lines Hlines]
    by (eexists; vm_compute; reflexivity).
  exists lines. split; [exact Hlines|].
  destruct (recent_section_cap _ _ Hlines) as (entries & Hsplit & _ & Hlength & _).
  exists entries. split; [exact Hsplit|]. rewrite Hlength. reflexivity.
Defined.

(** X13. [org_prs] partitions the pull requests it is built from: its keys
    are pairwise distinct, the list under an organization holds the pull
    requests filed under it, all of them and in their order, no list is
    empty, and the organization [oameye] has no key.  A pull request whose
    repository has no owner part is filed under [Unknown]. *)
Theorem group_by_org_partition prs :
  NoDup (group_by_org prs).*1
  ∧ (∀ org g,
       (org, g) ∈ group_by_org prs
       ↔ g = filter (λ pr, organization pr = org) prs ∧ g ≠ [] ∧ org ≠ "oameye")
  ∧ mjoin (group_by_org prs).*2 ≡ₚ filter (λ pr, organization pr ≠ "oameye") prs
  ∧ (∀ pr, ref_nameWithOwner (get_repository pr) = None → organization pr = "Unknown").
Proof.
  split; [rewrite group_by_org_grouped; apply grouped_keys_NoDup|].
  split; [apply elem_of_group_by_org|].
  split; [rewrite group_by_org_grouped; apply grouped_values|].
  intros pr Hnone. unfold organization, nameWithOwner. by rewrite Hnone.
Qed.

(** X14. In the section by organization every external, merged pull request
    is counted under exactly one organization: the check that skips the
    organization [oameye] never skips one of them, so the counts in the
    headings add up to the number of external, merged pull requests. *)
Theorem every_external_pr_counted all_prs :
  let groups := group_by_org (external_closed_prs all_prs) in
  mjoin groups.*2 ≡ₚ external_closed_prs all_prs
  ∧ sum_list (length <$> groups.*2)
    = length (filter (λ pr, external pr ∧ merged pr) all_prs)
  ∧ (∀ org g, (org, g) ∈ groups
              ↔ g = filter (λ pr, organization pr = org) (external_closed_prs all_prs)
                ∧ g ≠ []).
Proof.
  intros groups.
  assert (filter (λ pr, organization pr ≠ "oameye") (external_closed_prs all_prs)
          = external_closed_prs all_prs) as Hall.
  { apply filter_all. intros pr (_ & Hexternal & _)%elem_of_external_closed_prs.
    by apply external_organization. }
  assert (mjoin groups.*2 ≡ₚ external_closed_prs all_prs) as Hperm.
  { unfold groups. rewrite group_by_org_grouped, grouped_values. by rewrite Hall. }
  split; [done|]. split.
  - rewrite <- length_join, Hperm, (external_closed_prs_perm all_prs). done.
  - intros org g. unfold groups. rewrite elem_of_group_by_org. split; [tauto|].
    intros [-> Hnonempty]. split; [done|]. split; [done|]. intros ->.
    apply Hnonempty. apply filter_none.
    intros pr (_ & Hexternal & _)%elem_of_external_closed_prs.
    by apply external_organization.
Qed.

(** X15. The blocks of the section by organization come in the order of
    decreasing number of pull requests, one block for each organization; a
    block starts with the name of the organization and the number of its
    external, merged pull requests. *)
Theorem organizations_in_count_order all_prs lines :
  organizations_section all_prs = Ok lines →
  let ordered := sort_desc len_lt (group_by_org (external_closed_prs all_prs)) in
  ∃ blocks,
    lines = ["## 📝 All Merged Pull Requests by Organization (External Repositories)"; ""]
            ++ mjoin blocks
    ∧ Forall2 (λ item block,
                 org_block item = Ok block
                 ∧ head block = Some ("### " +:+ item.1 +:+ " ("
                                        +:+ str_nat (length item.2) +:+ " PRs)"))
        ordered blocks
    ∧ descending len_lt ordered
    ∧ ordered ≡ₚ group_by_org (external_closed_prs all_prs).
Proof.
  unfold organizations_section. cbv zeta.
  intros (body & (blocks & Hblocks & ->)%for_each_extend_Ok & [= <-])%bind_Ok.
  exists blocks. split; [done|]. split.
  - eapply Forall2_impl; [exact Hblocks|]. intros [org prs] block Hblock.
    split; [done|]. unfold org_block in Hblock.
    by apply bind_Ok in Hblock as (inner & _ & [= <-]).
  - split; [|apply sort_desc_perm].
    apply sort_desc_descending; apply len_lt_order.
Qed.

Lemma organizations_in_count_order_witness :
  ∃ lines,
    organizations_section (flagship_sample ++ fifteen_prs) = Ok lines
    ∧ ∃ blocks,
        lines
        = ["## 📝 All Merged Pull Requests by Organization (External Repositories)"; ""]
          ++ mjoin blocks
        ∧ length blocks = 2%nat.
Proof.
  assert (∃ lines, organizations_section (flagship_sample ++ fifteen_prs) = Ok lines)
    as [lines Hlines] by (eexists; vm_compute; reflexivity).
  exists lines. split; [exact Hlines|].
  destruct (organizations_in_count_order _ _ Hlines) as (blocks & Hsplit & Hblocks & _).
  exists blocks. split; [exact Hsplit|].
  apply Forall2_length in Hblocks. rewrite <- Hblocks. by vm_compute.
Defined.

(** X16. The pull requests of an organization reach its block most recent
    first already, since they are grouped from a sorted list: the sort that
    each branch applies to them, or to the pull requests of the flagship and
    to the others, changes nothing. *)
Theorem groups_already_sorted all_prs org g :
  (org, g) ∈ group_by_org (external_closed_prs all_prs) →
  sort_desc created_lt g = g
  ∧ ∀ flagship,
      sort_desc created_lt (filter (targets flagship) g) = filter (targets flagship) g
      ∧ sort_desc created_lt (filter (λ pr, ¬ targets flagship pr) g)
        = filter (λ pr, ¬ targets flagship pr) g.
Proof.
  intros [-> _]%elem_of_group_by_org.
  assert (descending created_lt
            (filter (λ pr, organization pr = org) (external_closed_prs all_prs))) as Hsorted.
  { eapply descending_sublist; [apply sort_created_descending | apply sublist_filter]. }
  split; [by apply sort_desc_descending_id|].
  intros flagship. split; apply sort_desc_descending_id;
    (eapply descending_sublist; [exact Hsorted | apply sublist_filter]).
Qed.

Lemma groups_already_sorted_witness :
  ("JuliaDynamics", flagship_sample) ∈ group_by_org (external_closed_prs flagship_sample)
  ∧ sort_desc created_lt flagship_sample = flagship_sample.
Proof.
  assert (("JuliaDynamics", flagship_sample)
            ∈ group_by_org (external_closed_prs flagship_sample)) as Hgroup
    by (vm_compute; left).
  split; [exact Hgroup|].
  exact (proj1 (groups_already_sorted _ _ _ Hgroup)).
Defined.

(** X17. For an organization other than the three with a summary, the block
    lists every pull request of the organization, one line each, most recent
    first, between its heading and a closing empty line. *)
Theorem default_org_lists_every_pr org prs lines :
  org ≠ "QuantumEngineeredSystems" → org ≠ "JuliaDynamics" → org ≠ "qojulia" →
  org_block (org, prs) = Ok lines →
  ∃ entries,
    lines = ["### " +:+ org +:+ " (" +:+ str_nat (length prs) +:+ " PRs)"; ""]
            ++ entries ++ [""]
    ∧ Forall2 (λ pr line, pr_line pr = Ok line) (sort_desc created_lt prs) entries
    ∧ length entries = length prs
    ∧ descending created_lt (sort_desc created_lt prs)
    ∧ sort_desc created_lt prs ≡ₚ prs.
Proof.
  intros Hquantum Hjulia Hqojulia. unfold org_block.
  rewrite (proj2 (String.eqb_neq _ _) Hquantum), (proj2 (String.eqb_neq _ _) Hjulia),
    (proj2 (String.eqb_neq _ _) Hqojulia).
  intros (entries & Hentries%for_each_Ok & [= <-])%bind_Ok.
  exists entries. split; [done|]. split; [done|].
  split; [by rewrite <- (Forall2_length _ _ _ Hentries), sort_desc_length|].
  split; [apply sort_created_descending | apply sort_desc_perm].
Qed.

Lemma default_org_lists_every_pr_witness :
  "SciML" ≠ "QuantumEngineeredSystems" ∧ "SciML" ≠ "JuliaDynamics" ∧ "SciML" ≠ "qojulia"
  ∧ ∃ lines,
      org_block ("SciML", fifteen_prs) = Ok lines
      ∧ ∃ entries,
          lines = ["### SciML (15 PRs)"; ""] ++ entries ++ [""]
          ∧ length entries = 15%nat.
Proof.
  assert ("SciML" ≠ "QuantumEngineeredSystems") as Hquantum by done.
  assert ("SciML" ≠ "JuliaDynamics") as Hjulia by done.
  assert ("SciML" ≠ "qojulia") as Hqojulia by done.
  split; [exact Hquantum|]. split; [exact Hjulia|]. split; [exact Hqojulia|].
  assert (∃ lines, org_block ("SciML", fifteen_prs) = Ok lines) as [lines Hlines]
    by (eexists; vm_compute; reflexivity).
  exists lines. split; [exact Hlines|].
  destruct (default_org_lists_every_pr _ _ _ Hquantum Hjulia Hqojulia Hlines)
    as (entries & Hsplit & _ & Hlength & _).
  exists entries. split; [exact Hsplit | exact Hlength].
Defined.

(** X18. The summary of QuantumEngineeredSystems: the number of its pull
    requests; one line for each repository that has pull requests, with the
    number of them, larger numbers first, and these numbers add up to the
    total; then the five most recent pull requests, or all of them when there
    are fewer. *)
Theorem quantum_engineered_summary prs lines :
  quantum_engineered_branch prs = Ok lines →
  let counts := counted short_name prs in
  ∃ recent,
    lines
    = ["*As main maintainer of QuantumEngineeredSystems packages:*";
       "- **" +:+ str_nat (length prs) +:+ "** merged PRs";
       "- Active development across **" +:+ str_nat (length counts) +:+ "** repositories:"]
      ++ ((λ item : string * nat,
             "  - **" +:+ item.1 +:+ "**: " +:+ str_nat item.2 +:+ " PRs")
            <$> sort_desc count_lt counts)
      ++ [""; "*Recent contributions (last 5):*"] ++ recent
    ∧ Forall2 (λ pr line, pr_line pr = Ok line) (take 5 (sort_desc created_lt prs)) recent
    ∧ length recent = (length prs `min` 5)%nat
    ∧ NoDup counts.*1
    ∧ (∀ name n,
         (name, n) ∈ counts
         ↔ n = length (filter (λ pr, short_name pr = name) prs) ∧ n ≠ 0%nat)
    ∧ sum_list counts.*2 = length prs
    ∧ descending count_lt (sort_desc count_lt counts)
    ∧ sort_desc count_lt counts ≡ₚ counts.
Proof.
  unfold quantum_engineered_branch. cbv zeta.
  intros (recent & Hrecent%for_each_Ok & [= <-])%bind_Ok.
  exists recent. split; [reflexivity|]. split; [done|].
  set (counts := counted short_name prs).
  split; [rewrite <- (Forall2_length _ _ _ Hrecent), length_take, sort_desc_length; lia|].
  assert (counts.*1 = (grouped short_name prs).*1) as Hkeys.
  { unfold counts. rewrite counted_grouped, <- list_fmap_compose. done. }
  assert (counts.*2 = length <$> (grouped short_name prs).*2) as Hvalues.
  { unfold counts. rewrite counted_grouped, <- !list_fmap_compose. done. }
  split; [rewrite Hkeys; apply grouped_keys_NoDup|].
  split.
  - intros name n. unfold counts. rewrite counted_grouped, list_elem_of_fmap. split.
    + intros ([k g] & [= -> ->] & [-> Hnonempty]%elem_of_grouped). split; [done|].
      simpl. by destruct (filter _ prs).
    + intros [-> Hpositive]. exists (name, filter (λ pr, short_name pr = name) prs).
      split; [done|]. apply elem_of_grouped. split; [done|]. by intros Hnil; rewrite Hnil in *.
  - split; [by rewrite Hvalues, <- length_join, grouped_values|].
    split; [apply sort_desc_descending; apply count_lt_order | apply sort_desc_perm].
Qed.

Lemma quantum_engineered_summary_witness :
  ∃ lines,
    quantum_engineered_branch fifteen_prs = Ok lines
    ∧ sum_list (counted short_name fifteen_prs).*2 = 15%nat
    ∧ ∃ recent, length recent = 5%nat
                ∧ Forall2 (λ pr line, pr_line pr = Ok line)
                    (take 5 (sort_desc created_lt fifteen_prs)) recent.
Proof.
  assert (∃ lines, quantum_engineered_branch fifteen_prs = Ok lines) as [lines Hlines]
    by (eexists; vm_compute; reflexivity).
  exists lines. split; [exact Hlines|].
  destruct (quantum_engineered_summary _ _ Hlines)
    as (recent & _ & Hrecent & Hlength & _ & _ & Hsum & _).
  split; [exact Hsum|]. exists recent. split; [exact Hlength | exact Hrecent].
Defined.

(** The two ways an iteration of the loop of [categorize_repositories] can
    go. *)
Lemma categorize_step_cases categories repo :
  (hidden repo = false ∧ repo_name repo = None
   ∧ categorize_step categories repo = Raise (KeyError "name"))
  ∨ (named_if_listed repo
     ∧ categorize_step categories repo
       = Ok (match assigned repo with
             | Some category => dict_append category repo categories
             | None => categories
             end)).
Proof.
  destruct (hidden repo) eqn:Hhidden.
  - right. assert (named_if_listed repo) as Hnamed by (intros ?; congruence).
    split; [done | by apply categorize_step_first_match].
  - destruct (repo_name repo) as [name|] eqn:Hname.
    + right. assert (named_if_listed repo) as Hnamed by (intros _; rewrite Hname; eauto).
      split; [done | by apply categorize_step_first_match].
    + left. split; [done|]. split; [done|].
      unfold categorize_step. unfold hidden in Hhidden. by rewrite Hhidden, Hname.
Qed.

Lemma categorize_loop_raises categories repos e :
  categorize_loop categories repos = Raise e
  ↔ e = KeyError "name"
    ∧ ∃ repo, repo ∈ repos ∧ hidden repo = false ∧ repo_name repo = None.
Proof.
  revert categories. induction repos as [|repo repos IH]; intros categories.
  - simpl. split; [done|]. by intros (_ & repo & ?%elem_of_nil & _).
  - cbn [categorize_loop].
    destruct (categorize_step_cases categories repo)
      as [(Hhidden & Hname & ->)|[Hnamed ->]]; cbn [bind].
    + split.
      * intros [= <-]. split; [done|]. exists repo. split; [left|done].
      * by intros [-> _].
    + rewrite IH. split.
      * intros (-> & other & Hin & Hother). split; [done|]. exists other.
        split; [by right | done].
      * intros (-> & other & [->|Hin]%elem_of_cons & Hhidden & Hname).
        { destruct (Hnamed Hhidden) as [name Hsome]. congruence. }
        split; [done|]. by exists other.
Qed.

Lemma categorize_repositories_Ok repos categories :
  categorize_repositories repos = Ok categories →
  Forall named_if_listed repos
  ∧ categories = buckets_with (extend (λ _, []) repos).
Proof.
  intros Hrun.
  assert (Forall named_if_listed repos) as Hnamed.
  { apply Forall_forall. intros repo Hin Hhidden.
    destruct (repo_name repo) as [name|] eqn:Hname; [by eexists|].
    assert (categorize_repositories repos = Raise (KeyError "name")) as Hraise.
    { apply categorize_loop_raises. split; [done|]. by exists repo. }
    congruence. }
  split; [done|]. unfold categorize_repositories in Hrun.
  change empty_categories with (buckets_with (λ _, [])) in Hrun.
  rewrite categorize_loop_assigned in Hrun by done. congruence.
Qed.

(** X19. [categorize_repositories] stops with [KeyError: 'name'] exactly when
    some repository that is neither private nor a fork has no name, wherever
    it is in the list; it raises nothing else, and a private repository or a
    fork without a name does no harm. *)
Theorem categorize_repositories_raises repos :
  (∀ e, categorize_repositories repos = Raise e
        ↔ e = KeyError "name"
          ∧ ∃ repo, repo ∈ repos ∧ hidden repo = false ∧ repo_name repo = None)
  ∧ ((∃ categories, categorize_repositories repos = Ok categories)
     ↔ Forall named_if_listed repos).
Proof.
  split; [intros e; apply categorize_loop_raises|]. split.
  - intros [categories Hrun]. by apply categorize_repositories_Ok in Hrun as [? _].
  - intros Hnamed. eexists. unfold categorize_repositories.
    change empty_categories with (buckets_with (λ _, [])).
    by apply categorize_loop_assigned.
Qed.

Lemma filter_assigned_not_fork category repos :
  filter (λ repo, assigned repo = Some category)
    (List.filter (λ repo, negb (get (repo_isFork repo) false)) repos)
  = filter (λ repo, assigned repo = Some category) repos.
Proof.
  induction repos as [|repo repos IH]; [done|].
  cbn [List.filter]. destruct (get (repo_isFork repo) false) eqn:Hfork; cbn [negb].
  - rewrite (filter_cons_False _ repo repos); [done|].
    unfold assigned, hidden. rewrite Hfork, orb_true_r. done.
  - rewrite !filter_cons, IH. done.
Qed.

Lemma category_block_layout category listed block :
  category_block (category, listed) = Ok block →
  (listed = [] → block = [])
  ∧ (listed ≠ [] →
     ∃ entries,
       block = ["### " +:+ category; ""] ++ mjoin entries
       ∧ Forall2 (λ repo entry, repo_block repo = Ok entry)
           (sort_desc stars_created_lt listed) entries).
Proof.
  unfold category_block. destruct listed as [|repo listed].
  - intros [= <-]. done.
  - intros (body & (entries & Hentries & ->)%for_each_extend_Ok & [= <-])%bind_Ok.
    split; [done|]. intros _. by exists entries.
Qed.

(** X20. The section of projects has one block for each of the five
    buckets, in the order Julia packages, research, tools, documentation,
    personal.  The block of a bucket without repositories is empty, heading
    included; another block is the heading of the bucket followed by the
    entries of its repositories, those with more stars first and, among
    repositories with as many stars, the more recently created first. *)
Theorem projects_section_layout repos lines :
  projects_section repos = Ok lines →
  ∃ blocks,
    lines = ["## 🚀 My Open Source Projects"; ""] ++ mjoin blocks
    ∧ Forall2 (λ category block,
                 let listed := filter (λ repo, assigned repo = Some category) repos in
                 let ordered := sort_desc stars_created_lt listed in
                 (listed = [] → block = [])
                 ∧ (listed ≠ [] →
                    ∃ entries,
                      block = ["### " +:+ category; ""] ++ mjoin entries
                      ∧ Forall2 (λ repo entry, repo_block repo = Ok entry) ordered entries)
                 ∧ descending stars_created_lt ordered
                 ∧ ordered ≡ₚ listed)
        category_names blocks.
Proof.
  unfold projects_section. cbv zeta.
  intros (categories & [_ ->]%categorize_repositories_Ok & Hrest)%bind_Ok.
  apply bind_Ok in Hrest as (body & (blocks & Hblocks & ->)%for_each_extend_Ok & [= <-]).
  exists blocks. split; [done|].
  change (buckets_with ?content) with ((λ category, (category, content category))
                                         <$> category_names) in Hblocks.
  apply Forall2_fmap_l in Hblocks.
  eapply Forall2_impl; [exact Hblocks|]. intros category block Hblock. cbv zeta.
  unfold compose, extend in Hblock. cbn [app] in Hblock.
  rewrite filter_assigned_not_fork in Hblock.
  apply category_block_layout in Hblock as [Hempty Hfull].
  split; [done|]. split; [done|].
  split; [apply sort_desc_descending; apply stars_created_lt_order | apply sort_desc_perm].
Qed.

Lemma projects_section_layout_witness :
  ∃ lines,
    projects_section
      [sample_repo "foo.jl" "a tutorial" 3; sample_repo "MyWebsite" "" 0;
       sample_repo "bar.jl" "" 5] = Ok lines
    ∧ ∃ blocks,
        lines = ["## 🚀 My Open Source Projects"; ""] ++ mjoin blocks
        ∧ length blocks = 5%nat.
Proof.
  assert (∃ lines,
            projects_section
              [sample_repo "foo.jl" "a tutorial" 3; sample_repo "MyWebsite" "" 0;
               sample_repo "bar.jl" "" 5] = Ok lines) as [lines Hlines]
    by (eexists; vm_compute; reflexivity).
  exists lines. split; [exact Hlines|].
  destruct (projects_section_layout _ _ Hlines) as (blocks & Hsplit & Hblocks).
  exists blocks. split; [exact Hsplit|].
  apply Forall2_length in Hblocks. by rewrite <- Hblocks.
Defined.

End report_more.

(** ** The scripts end to end *)

Section scripts_facts.
Import Py Reconciler Store.

Implicit Types (fs : files) (gh : github).

Lemma generate_main_keeps_database today fs :
  prs_json (Generate.main today fs).1.2 = prs_json fs
  ∧ repos_json (Generate.main today fs).1.2 = repos_json fs
  ∧ metadata_json (Generate.main today fs).1.2 = metadata_json fs.
Proof.
  unfold Generate.main, Generate.generate_markdown.
  destruct (Generate.load_database fs) as [db lines].
  by destruct (Report.generate_markdown today db) as [[content|]|e].
Qed.

Lemma update_database_metadata now gh fs :
  metadata_json (update_database now gh fs).1.2
  = Some (Metadata (Some now) (length (db_prs (update_database now gh fs).1.1))
            (length (db_repos (update_database now gh fs).1.1))).
Proof. by rewrite update_database_unfold. Qed.


(** X22. When the workflow ends with exit code 0, its last two lines of
    output give the numbers of pull requests and repositories in the
    refreshed database and the time of this run: the metadata it reads are
    the ones the refresh has just written, never [Unknown]. *)
Theorem workflow_reports_store traceback now today gh fs :
  let db := (update_database now gh fs).1.1 in
  (Workflow.main traceback now today gh fs).1.1 = 0%nat →
  ∃ before,
    (Workflow.main traceback now today gh fs).2
    = before
      ++ ["📊 Database stats: " +:+ str_nat (length (db_prs db)) +:+ " PRs, "
            +:+ str_nat (length (db_repos db)) +:+ " repos";
          "🕒 Last updated: " +:+ now].
Proof.
  intros db. unfold db. clear db.
  pose proof (update_database_metadata now gh fs) as Hmetadata.
  unfold Workflow.main.
  destruct (update_database now gh fs) as [[db stored] lines_update].
  cbn [fst snd] in Hmetadata.
  cbn [fst snd Workflow.run_script Workflow.process Workflow.returncode negb Nat.eqb].
  destruct (generate_main_keeps_database today stored) as (_ & _ & Hkeep).
  destruct (Generate.main today stored) as [[how final] lines_generate].
  cbn [fst snd] in Hkeep. rewrite Hmetadata in Hkeep.
  destruct how as [[|code]|e];
    cbn [fst snd Workflow.run_script Workflow.process Workflow.returncode negb Nat.eqb];
    [|done|done].
  intros _. rewrite Hkeep.
  cbn [total_prs total_repos Workflow.last_updated last_update].
  rewrite !app_assoc. eexists. reflexivity.
Qed.

Lemma workflow_reports_store_witness :
  (Workflow.main (λ _, "") "2024-03-05T12:00:00" "March 05, 2024" sample_github
     sample_files).1.1 = 0%nat
  ∧ ∃ before,
      (Workflow.main (λ _, "") "2024-03-05T12:00:00" "March 05, 2024" sample_github
         sample_files).2
      = before ++ ["📊 Database stats: 3 PRs, 2 repos";
                   "🕒 Last updated: 2024-03-05T12:00:00"].
Proof.
  assert ((Workflow.main (λ _, "") "2024-03-05T12:00:00" "March 05, 2024" sample_github
             sample_files).1.1 = 0%nat) as Hcode by (by vm_compute).
  split; [exact Hcode|].
  destruct (workflow_reports_store _ _ _ _ _ Hcode) as [before Hbefore].
  exists before. rewrite Hbefore. apply (f_equal (app before)). by vm_compute.
Defined.

(** X23. What a run of [update_database] stores depends on the two stored
    lists and on the answers of the GitHub CLI only: the stored time of the
    last update restricts neither what is fetched nor what is merged, and the
    report on disk plays no part. *)
Theorem update_database_ignores_metadata now gh fs fs' :
  prs_json fs = prs_json fs' → repos_json fs = repos_json fs' →
  let after := (update_database now gh fs).1.2 in
  let after' := (update_database now gh fs').1.2 in
  prs_json after = prs_json after'
  ∧ repos_json after = repos_json after'
  ∧ metadata_json after = metadata_json after'.
Proof.
  intros Hprs Hrepos after after'. unfold after, after'.
  rewrite (update_database_unfold now gh fs), (update_database_unfold now gh fs').
  cbv zeta.
  cbn [fst snd save_database load_database prs_json repos_json metadata_json db_prs
         db_repos].
  by rewrite Hprs, Hrepos.
Qed.

Lemma update_database_ignores_metadata_witness :
  prs_json (update_database "2024-03-05T12:00:00" sample_github sample_files).1.2
  = prs_json
      (update_database "2024-03-05T12:00:00" sample_github
         {| prs_json := prs_json sample_files;
            repos_json := repos_json sample_files;
            metadata_json := None;
            contributions_md := Some "# Open Source Contributions" |}).1.2.
Proof.
  exact (proj1 (update_database_ignores_metadata "2024-03-05T12:00:00" sample_github
                  sample_files
                  {| prs_json := prs_json sample_files;
                     repos_json := repos_json sample_files;
                     metadata_json := None;
                     contributions_md := Some "# Open Source Contributions" |}
                  eq_refl eq_refl)).
Defined.

End scripts_facts.
